(** * Dask-aware reprojection: the task-graph builder of [odc.algo._warp]

    A shallow embedding of [src/libs/algo/odc/algo/_warp.py]:
    [_reproject_block_impl], [dask_reproject] and [xr_reproject_array].

    Python integers are [Z], tuples are lists, the task dictionary [dsk]
    is a [gmap] keyed by [(name, *idx)], and the calls that leave the
    module (the datacube geometry library, the helpers of [._dask]) are
    gathered in one interface, [Collaborators]. *)

From Stdlib Require Import ZArith Lia Floats.SpecFloat.
From stdpp Require Import base gmap strings pretty list list_numbers.

Local Open Scope Z_scope.

(** ** Python sequence operations *)

Module Py.

(** Normalisation of one slice bound against a sequence of length [len]:
    a negative bound counts from the end, and both are clipped. *)
Definition clip (len i : Z) : Z :=
  if decide (i < 0) then Z.max 0 (i + len) else Z.min i len.

(** [l[a:b]]; [None] is an omitted bound. *)
Definition slice {A} (l : list A) (a b : option Z) : list A :=
  let len := Z.of_nat (length l) in
  let lo := from_option (clip len) 0 a in
  let hi := from_option (clip len) len b in
  take (Z.to_nat (hi - lo)) (drop (Z.to_nat lo) l).

(** [len(t)] *)
Definition len {A} (l : list A) : Z := Z.of_nat (length l).

(** [np.ndindex(dims)]: every index tuple below [dims], last axis
    fastest.  [np.ndindex(())] yields the empty tuple once. *)
Fixpoint ndindex (dims : list Z) : list (list Z) :=
  match dims with
  | [] => [[]]
  | d :: dims' => i ← seqZ 0 d; (i ::.) <$> ndindex dims'
  end.

(** [t[i]] for an index produced by [range(len(t))]; the default is
    never reached from [ndindex (len <$> chunks)]. *)
Definition item (t : list Z) (i : Z) : Z := default 0 (t !! Z.to_nat i).

(** [t.index(x)]: the position of the first [x]; [None] stands for the
    [ValueError] of a missing element. *)
Fixpoint index `{EqDecision A} (t : list A) (x : A) : option Z :=
  match t with
  | [] => None
  | y :: t' => if decide (y = x) then Some 0 else Z.succ <$> index t' x
  end.

End Py.

(** ** Data model *)

(** [NodataType = Union[int, float]] *)
Inductive NodataType :=
| NdInt (z : Z)
| NdFloat (f : spec_float).

Inductive Error :=
| AssertionError
| AttributeError
| KeyError
| TypeError
| ValueError.

(** A block key of a dask graph: [(name, i0, i1, ...)]. *)
Abbreviation Key := (string * list Z)%type.

(** A task of the graph.  The first loop of [dask_reproject] registers
    [(_reproject_block_impl, (src_name, *ii1, 0, 0), src_geobox,
    dst_geobox, resampling, src_nodata, dst_nodata, axis)].

    Modelled from the spec: [empty_maker] of [._dask] is not part of the
    sources at hand.  The closure it returns registers "a constant-fill
    task producing a block of the correct pixel shape filled with the
    destination-nodata value (or 0 if destination-nodata is unset)";
    [Full bshape fill_value dtype] is that task. *)
Inductive Task (GeoBox DType : Type) :=
| Reproject (src_block : Key) (src_geobox dst_geobox : GeoBox)
            (resampling : string)
            (src_nodata dst_nodata : option NodataType) (axis : Z)
| Full (bshape : list Z) (fill_value : NodataType) (dtype : DType).
Arguments Reproject {GeoBox DType}.
Arguments Full {GeoBox DType}.

(** [da.Array(dask, name, chunks=, dtype=, shape=)] over
    [HighLevelGraph.from_collections(name, layer, dependencies=)]. *)
#[local] Set Warnings "-register-all".
Inductive DaskArray (GeoBox DType : Type) :=
  Array {
    da_layer : gmap Key (Task GeoBox DType);
    da_dependencies : list (DaskArray GeoBox DType);
    da_name : string;
    da_chunks : list (list Z);
    da_dtype : DType;
    da_shape : list Z
  }.
Arguments Array {GeoBox DType}.
Arguments da_layer {GeoBox DType}.
Arguments da_dependencies {GeoBox DType}.
Arguments da_name {GeoBox DType}.
Arguments da_chunks {GeoBox DType}.
Arguments da_dtype {GeoBox DType}.
Arguments da_shape {GeoBox DType}.

(** What backs a [DataArray]: a dask array, or an array in memory. *)
Inductive XrData (GeoBox DType : Type) :=
| DaskData (a : DaskArray GeoBox DType)
| NumpyData.
Arguments DaskData {GeoBox DType}.
Arguments NumpyData {GeoBox DType}.

(** [xr.DataArray(data, name=, coords=, dims=, attrs=)].  An attribute
    holds a nodata value or Python's [None]. *)
Record DataArray (GeoBox DType Coord : Type) := {
  xr_data : XrData GeoBox DType;
  xr_name : string;
  xr_coords : gmap string Coord;
  xr_dims : list string;
  xr_attrs : gmap string (option NodataType)
}.
Arguments xr_data {GeoBox DType Coord}.
Arguments xr_name {GeoBox DType Coord}.
Arguments xr_coords {GeoBox DType Coord}.
Arguments xr_dims {GeoBox DType Coord}.
Arguments xr_attrs {GeoBox DType Coord}.

(** A numpy array: its shape and its cells in row-major order. *)
Record ndarray (T : Type) := NdArray { nd_shape : list Z; nd_data : list T }.
Arguments NdArray {T}.
Arguments nd_shape {T}.
Arguments nd_data {T}.

Module Np.

(** Number of cells of an array of the given shape. *)
Definition size (shape : list Z) : nat := Z.to_nat (foldr Z.mul 1 shape).

(** [np.empty(shape)].  numpy leaves the cells as they are in memory;
    the model puts one unspecified value [cell] in each. *)
Definition empty {T} (cell : T) (shape : list Z) : ndarray T :=
  NdArray shape (replicate (size shape) cell).

(** [a.ndim] *)
Definition ndim {T} (a : ndarray T) : Z := Py.len (nd_shape a).

(** Position of the index tuple [idx] among the index tuples below
    [dims], in row-major order. *)
Fixpoint ravel (dims idx : list Z) : Z :=
  match dims, idx with
  | d :: dims', i :: idx' => i * foldr Z.mul 1 dims' + ravel dims' idx'
  | _, _ => 0
  end.

(** First cell of [a[prefix]] within the cells of [a]. *)
Definition offset (shape prefix : list Z) : nat :=
  (Z.to_nat (ravel (take (length prefix) shape) prefix)
   * size (drop (length prefix) shape))%nat.

(** [a[prefix]] for a tuple of integers: the view on the sub-array. *)
Definition getitem {T} (a : ndarray T) (prefix : list Z) : ndarray T :=
  let rest := drop (length prefix) (nd_shape a) in
  NdArray rest (take (size rest) (drop (offset (nd_shape a) prefix) (nd_data a))).

(** Writing [new] over the cells [old] of a buffer: the buffer keeps
    its length. *)
Definition overwrite {T} (old new : list T) : list T :=
  take (length old) (new ++ drop (length new) old).

(** What writing [cells] through the view [a[prefix]] leaves in [a]. *)
Definition setitem {T} (a : ndarray T) (prefix : list Z) (cells : list T)
  : ndarray T :=
  let rest := drop (length prefix) (nd_shape a) in
  let off := offset (nd_shape a) prefix in
  NdArray (nd_shape a)
    (take off (nd_data a)
     ++ overwrite (take (size rest) (drop off (nd_data a))) cells
     ++ drop (off + size rest) (nd_data a)).

End Np.

(** The calls that leave the module.  [GeoBox], [GeoboxTiles],
    [compute_reproject_roi], [rio_reproject], [spatial_dims] and the
    [geobox] property of a [DataArray] belong to datacube;
    [randomize], [crop_2d_dense] and [unpack_chunksize] are imported
    from [._dask].  [randomize] and [crop_2d_dense] name new graph
    layers, so they thread the [World] the fresh names are drawn from. *)
Class Collaborators := {
  GeoBox : Type;
  Geometry : Type;
  Roi : Type;
  DType : Type;
  Coord : Type;
  World : Type;
  Pixel : Type;
  (** what [np.empty] leaves in a cell *)
  np_empty_cell : Pixel;
  (** [gbox.shape] *)
  gbox_shape : GeoBox → Z * Z;
  (** [gbox.extent] *)
  gbox_extent : GeoBox → Geometry;
  (** [gbox[roi]] *)
  gbox_crop : GeoBox → Roi → GeoBox;
  (** [gbox.dims] *)
  gbox_dims : GeoBox → string * string;
  (** [gbox.xr_coords(with_crs=True)] *)
  gbox_xr_coords : GeoBox → gmap string Coord;
  (** [GeoboxTiles(gbox, tile_shape).tiles(polygon)] *)
  gbt_tiles : GeoBox → list Z → Geometry → list (Z * Z);
  (** [GeoboxTiles(gbox, tile_shape)[idx]] *)
  gbt_getitem : GeoBox → list Z → Z * Z → GeoBox;
  (** [compute_reproject_roi(src, dst).roi_src] *)
  reproject_roi_src : GeoBox → GeoBox → Roi;
  (** [rio_reproject(src, dst, s_gbox, d_gbox, resampling, src_nodata,
      dst_nodata)]: the cells it writes to [dst] *)
  rio_reproject : ndarray Pixel → ndarray Pixel → GeoBox → GeoBox → string →
                  option NodataType → option NodataType → list Pixel;
  (** [spatial_dims(xx)], from the dimension names *)
  spatial_dims : list string → option (string * string);
  (** [xx.geobox], from the dimension names and the coordinates *)
  xr_geobox : list string → gmap string Coord → option GeoBox;
  (** [unpack_chunksize(chunk, N)] *)
  unpack_chunksize : Z → Z → list Z;
  (** [randomize(prefix)] *)
  randomize : string → World → string * World;
  (** [crop_2d_dense(src, yx_roi, axis=axis)] *)
  crop_2d_dense : DaskArray GeoBox DType → Roi → Z → World →
                  DaskArray GeoBox DType * World;
}.

(** ** The builder's effects: errors and the source of fresh names *)

Section Effects.
Context {W : Type}.

Definition M (A : Type) : Type := W → (Error + A) * W.

Definition ret {A} (a : A) : M A := λ w, (inr a, w).
Definition raise {A} (e : Error) : M A := λ w, (inl e, w).
Definition bind {A B} (m : M A) (k : A → M B) : M B :=
  λ w, match m w with
       | (inl e, w') => (inl e, w')
       | (inr a, w') => k a w'
       end.
Definition lift {A} (f : W → A * W) : M A :=
  λ w, let (a, w') := f w in (inr a, w').
Definition assert_ (b : bool) : M unit :=
  if b then ret () else raise AssertionError.

(** [for x in xs: s = body(x, s)] *)
Fixpoint for_each {A S} (xs : list A) (body : A → S → M S) (s : S) : M S :=
  match xs with
  | [] => ret s
  | x :: xs' => bind (body x s) (for_each xs' body)
  end.
End Effects.
Arguments M : clear implicits.

Notation "x ←' m ; k" := (bind m (λ x, k))
  (at level 20, m at level 100, k at level 200, only parsing).
Notation "m ;;' k" := (bind m (λ _, k))
  (at level 20, k at level 200, only parsing).

Section Warp.
Context `{Collaborators}.

Abbreviation task := (Task GeoBox DType).
Abbreviation array := (DaskArray GeoBox DType).
Abbreviation graph := (gmap Key task).
Abbreviation xarray := (DataArray GeoBox DType Coord).

(** [x.chunksize]: the largest chunk of every axis. *)
Definition da_chunksize (x : array) : list Z :=
  foldr Z.max 0 <$> da_chunks x.

(** A pair of Python ints as the tuple it is. *)
Definition yx (p : Z * Z) : list Z := [p.1; p.2].

(** *** [dask_reproject] *)

(** Body of the loop over the tiles with data (lines 96-113): crop the
    source to the tile's region of interest, then one task for every
    block index of the leading axes. *)
Definition add_tile (src : array) (src_geobox dst_geobox : GeoBox)
    (chunks : list Z) (resampling : string)
    (src_nodata dst_nodata : option NodataType) (axis : Z)
    (name : string) (dims1 : list Z)
    (idx : Z * Z) (st : graph * list array) : M World (graph * list array) :=
  let '(dsk, deps) := st in
  let _dst_geobox := gbt_getitem dst_geobox chunks idx in
  let roi_src := reproject_roi_src src_geobox _dst_geobox in
  _src ←' lift (crop_2d_dense src roi_src axis);
  let _src_geobox := gbox_crop src_geobox roi_src in
  let deps := deps ++ [_src] in
  let dsk :=
    foldl (λ (dsk : graph) ii1,
             <[(name, ii1 ++ yx idx) :=
                 Reproject (da_name _src, ii1 ++ [0; 0])
                           _src_geobox _dst_geobox
                           resampling src_nodata dst_nodata axis]> dsk)
          dsk (Py.ndindex dims1) in
  ret (dsk, deps).

(** Body of the loop over every block index (lines 120-125): a key
    the first loop left out gets the constant block. *)
Definition add_empty (name : string) (dst_chunks : list (list Z))
    (mk_empty : list Z → task) (dsk : graph) (idx : list Z) : graph :=
  let k := (name, idx) in
  if decide (dsk !! k = None) then
    let bshape := zip_with Py.item dst_chunks idx in
    <[k := mk_empty bshape]> dsk
  else dsk.

Definition dask_reproject (src : array) (src_geobox dst_geobox : GeoBox)
    (resampling : string) (chunks : option (Z * Z))
    (src_nodata dst_nodata : option NodataType)
    (axis : Z) (name : string) : M World array :=
  let chunks :=
    match chunks with
    | None => Py.slice (da_chunksize src) (Some axis) (Some (axis + 2))
    | Some c => yx c
    end in
  let dst_nodata :=
    match dst_nodata with None => src_nodata | Some _ => dst_nodata end in
  assert_ (bool_decide
            (Py.slice (da_shape src) (Some axis) (Some (axis + 2))
             = yx (gbox_shape src_geobox))) ;;'
  let yx_shape := yx (gbox_shape dst_geobox) in
  let yx_chunks := zip_with unpack_chunksize chunks yx_shape in
  let dst_chunks :=
    Py.slice (da_chunks src) None (Some axis) ++ yx_chunks
    ++ Py.slice (da_chunks src) (Some (axis + 2)) None in
  let dst_shape :=
    Py.slice (da_shape src) None (Some axis) ++ yx_shape
    ++ Py.slice (da_shape src) (Some (axis + 2)) None in
  let dims1 := Py.len <$> Py.slice dst_chunks None (Some axis) in
  let dims2 := Py.len <$> Py.slice dst_chunks (Some (axis + 2)) None in
  assert_ (bool_decide (dims2 = [])) ;;'
  let deps := [src] in
  let xy_chunks_with_data :=
    gbt_tiles dst_geobox chunks (gbox_extent src_geobox) in
  name ←' lift (randomize name);
  st ←' for_each xy_chunks_with_data
          (add_tile src src_geobox dst_geobox chunks resampling
                    src_nodata dst_nodata axis name dims1)
          (∅, deps);
  let '(dsk, deps) := st in
  let fill_value := match dst_nodata with None => NdInt 0 | Some v => v end in
  let shape_in_blocks := Py.len <$> dst_chunks in
  let mk_empty := λ bshape, Full bshape fill_value (da_dtype src) in
  let dsk := foldl (add_empty name dst_chunks mk_empty) dsk
                   (Py.ndindex shape_in_blocks) in
  ret (Array dsk deps name dst_chunks (da_dtype src) dst_shape).

(** *** [_reproject_block_impl] *)

(** One call of [rio_reproject], which writes into [dst] in place. *)
Definition rio_write (src dst : ndarray Pixel) (src_geobox dst_geobox : GeoBox)
    (resampling : string) (src_nodata dst_nodata : option NodataType)
  : ndarray Pixel :=
  NdArray (nd_shape dst)
    (Np.overwrite (nd_data dst)
       (rio_reproject src dst src_geobox dst_geobox resampling
                      src_nodata dst_nodata)).

(** Body of the loop over the leading indexes (lines 37-44): one call
    on the views [src[prefix]] and [dst[prefix]].  The state is the
    output buffer and the arrays passed to [rio_reproject] so far. *)
Definition reproject_slice (src : ndarray Pixel)
    (src_geobox dst_geobox : GeoBox) (resampling : string)
    (src_nodata dst_nodata : option NodataType)
    (st : ndarray Pixel * list (ndarray Pixel * ndarray Pixel))
    (prefix : list Z)
  : ndarray Pixel * list (ndarray Pixel * ndarray Pixel) :=
  let '(dst, calls) := st in
  let s := Np.getitem src prefix in
  let d := Np.getitem dst prefix in
  (Np.setitem dst prefix
     (nd_data (rio_write s d src_geobox dst_geobox resampling
                         src_nodata dst_nodata)),
   calls ++ [(s, d)]).

(** The block that [_reproject_block_impl] returns, and next to it the
    arrays it has passed to [rio_reproject], call after call. *)
Definition _reproject_block_impl (src : ndarray Pixel)
    (src_geobox dst_geobox : GeoBox) (resampling : string)
    (src_nodata dst_nodata : option NodataType) (axis : Z)
  : ndarray Pixel * list (ndarray Pixel * ndarray Pixel) :=
  let dst_shape :=
    Py.slice (nd_shape src) None (Some axis) ++ yx (gbox_shape dst_geobox)
    ++ Py.slice (nd_shape src) (Some (axis + 2)) None in
  let dst := Np.empty np_empty_cell dst_shape in
  if decide (Np.ndim dst = 2 ∨ (Np.ndim dst = 3 ∧ axis = 1)) then
    (rio_write src dst src_geobox dst_geobox resampling src_nodata dst_nodata,
     [(src, dst)])
  else
    foldl (reproject_slice src src_geobox dst_geobox resampling
                           src_nodata dst_nodata)
          (dst, [])
          (Py.ndindex (Py.slice (nd_shape src) None (Some axis))).

(** *** [xr_reproject_array] *)

(** [src.nodata]: the attribute of that name, [AttributeError] without. *)
Definition xr_nodata (src : xarray) : M World (option NodataType) :=
  match xr_attrs src !! "nodata"%string with
  | Some v => ret v
  | None => raise AttributeError
  end.

Definition xr_reproject_array (src : xarray) (geobox : GeoBox)
    (resampling : string) (chunks : option (Z * Z))
    (dst_nodata : option NodataType) : M World xarray :=
  dst_nodata ←' match dst_nodata with
                | None => xr_nodata src
                | Some _ => ret dst_nodata
                end;
  src_data ←' match xr_data src with
              | DaskData a => ret a
              | NumpyData => raise AssertionError
              end;
  src_geobox ←' match xr_geobox (xr_dims src) (xr_coords src) with
                | Some g => ret g
                | None => raise AssertionError
                end;
  yx_dims ←' match spatial_dims (xr_dims src) with
             | Some d => ret d
             | None => raise TypeError
             end;
  axis ←' match Py.index (xr_dims src) yx_dims.1 with
          | Some i => ret i
          | None => raise ValueError
          end;
  let src_dims := xr_dims src in
  let dst_dims :=
    Py.slice src_dims None (Some axis)
    ++ [(gbox_dims geobox).1; (gbox_dims geobox).2]
    ++ Py.slice src_dims (Some (axis + 2)) None in
  coords ←' for_each src_dims
              (λ dim (coords : gmap string Coord),
                 if decide (coords !! dim = None) then
                   match xr_coords src !! dim with
                   | Some c => ret (<[dim := c]> coords)
                   | None => raise KeyError
                   end
                 else ret coords)
              (gbox_xr_coords geobox);
  let attrs : gmap string (option NodataType) :=
    match dst_nodata with
    | Some v => <["nodata"%string := Some v]> ∅
    | None => ∅
    end in
  src_nodata ←' xr_nodata src;
  data ←' dask_reproject src_data src_geobox geobox resampling chunks
            src_nodata dst_nodata axis "reproject";
  ret {| xr_data := DaskData data; xr_name := xr_name src;
         xr_coords := coords; xr_dims := dst_dims; xr_attrs := attrs |}.

(** *** Vocabulary of the statements *)

(** The locals of [dask_reproject], as functions of its arguments. *)
Definition resolve_chunks (src : array) (chunks : option (Z * Z))
    (axis : Z) : list Z :=
  match chunks with
  | None => Py.slice (da_chunksize src) (Some axis) (Some (axis + 2))
  | Some c => yx c
  end.

Definition resolve_nodata (src_nodata dst_nodata : option NodataType)
  : option NodataType :=
  match dst_nodata with None => src_nodata | Some _ => dst_nodata end.

Definition fill_value_of (dst_nodata : option NodataType) : NodataType :=
  match dst_nodata with None => NdInt 0 | Some v => v end.

Definition yx_chunks_of (src : array) (dst_geobox : GeoBox)
    (chunks : option (Z * Z)) (axis : Z) : list (list Z) :=
  zip_with unpack_chunksize (resolve_chunks src chunks axis)
           (yx (gbox_shape dst_geobox)).

Definition dst_chunks_of (src : array) (dst_geobox : GeoBox)
    (chunks : option (Z * Z)) (axis : Z) : list (list Z) :=
  Py.slice (da_chunks src) None (Some axis)
  ++ yx_chunks_of src dst_geobox chunks axis
  ++ Py.slice (da_chunks src) (Some (axis + 2)) None.

Definition dst_shape_of (src : array) (dst_geobox : GeoBox) (axis : Z)
  : list Z :=
  Py.slice (da_shape src) None (Some axis) ++ yx (gbox_shape dst_geobox)
  ++ Py.slice (da_shape src) (Some (axis + 2)) None.

Definition dims1_of (src : array) (dst_geobox : GeoBox)
    (chunks : option (Z * Z)) (axis : Z) : list Z :=
  Py.len <$> Py.slice (dst_chunks_of src dst_geobox chunks axis)
                      None (Some axis).

Definition dims2_of (src : array) (dst_geobox : GeoBox)
    (chunks : option (Z * Z)) (axis : Z) : list Z :=
  Py.len <$> Py.slice (dst_chunks_of src dst_geobox chunks axis)
                      (Some (axis + 2)) None.

(** [xy_chunks_with_data]: the tiles of the destination that the
    tile grid reports as meeting the footprint of the source. *)
Definition tiles_with_data (src : array) (src_geobox dst_geobox : GeoBox)
    (chunks : option (Z * Z)) (axis : Z) : list (Z * Z) :=
  gbt_tiles dst_geobox (resolve_chunks src chunks axis)
            (gbox_extent src_geobox).

(** Every dask array has one tuple of chunks per axis. *)
Definition well_formed (x : array) : Prop :=
  length (da_chunks x) = length (da_shape x).

(** The preconditions: the row/col extent at [axis] is the pixel shape
    of the source grid, and no axis follows row/col. *)
Definition valid_input (src : array) (src_geobox : GeoBox) (axis : Z)
  : Prop :=
  Py.slice (da_shape src) (Some axis) (Some (axis + 2))
    = yx (gbox_shape src_geobox)
  ∧ Py.slice (da_shape src) (Some (axis + 2)) None = [].

Definition is_resample (t : task) : Prop :=
  match t with Reproject _ _ _ _ _ _ _ => True | Full _ _ _ => False end.

Definition is_fill (t : task) : Prop :=
  match t with Reproject _ _ _ _ _ _ _ => False | Full _ _ _ => True end.

(** The task that the first loop registers for the tile [idx] at the
    leading block index [ii1], from the cropped source named [sn]. *)
Definition tile_task (src_geobox dst_geobox : GeoBox) (chunks : list Z)
    (resampling : string) (src_nodata dst_nodata : option NodataType)
    (axis : Z) (sn : string) (ii1 : list Z) (idx : Z * Z)
  : Task GeoBox DType :=
  let dst_tile := gbt_getitem dst_geobox chunks idx in
  let roi_src := reproject_roi_src src_geobox dst_tile in
  Reproject (sn, ii1 ++ [0; 0]) (gbox_crop src_geobox roi_src) dst_tile
            resampling src_nodata dst_nodata axis.

(** A key of the first loop: the graph name, then a leading block
    index, then a tile with data. *)
Definition tile_key (name : string) (dims1 : list Z)
    (tiles : list (Z * Z)) (k : Key) : Prop :=
  ∃ ii1 idx, ii1 ∈ Py.ndindex dims1 ∧ idx ∈ tiles
             ∧ k = (name, ii1 ++ yx idx).


(** One slice resampled by hand: what the primitive leaves in a buffer
    of the slice's shape, from the slice of the source at [prefix]. *)
Definition slice_by_hand (src : ndarray Pixel)
    (src_geobox dst_geobox : GeoBox) (resampling : string)
    (src_nodata dst_nodata : option NodataType) (slice_shape : list Z)
    (prefix : list Z) : list Pixel :=
  nd_data (rio_write (Np.getitem src prefix)
             (Np.empty np_empty_cell slice_shape)
             src_geobox dst_geobox resampling src_nodata dst_nodata).


End Warp.

(** ** A concrete set of collaborators

    Grids that share one pixel lattice (one CRS, one resolution): a grid
    is a window of the lattice, a footprint is the window itself, and
    the region of interest of a tile is its overlap with the source.
    Fresh names are drawn from a counter. *)

Module Lattice.

Record Box := { oy : Z; ox : Z; ny : Z; nx : Z }.

Definition overlap (a b : Box) : bool :=
  bool_decide (oy a < oy b + ny b ∧ oy b < oy a + ny a
               ∧ ox a < ox b + nx b ∧ ox b < ox a + nx a).

(** Number of tiles of size [n] that cover [N] pixels. *)
Definition ceil_div (N n : Z) : Z := - (- N / n).

Definition tile (g : Box) (tile_shape : list Z) (idx : Z * Z) : Box :=
  let ty := Py.item tile_shape 0 in
  let tx := Py.item tile_shape 1 in
  {| oy := oy g + idx.1 * ty; ox := ox g + idx.2 * tx;
     ny := Z.min ty (ny g - idx.1 * ty);
     nx := Z.min tx (nx g - idx.2 * tx) |}.

Definition tiles (g : Box) (tile_shape : list Z) (poly : Box)
  : list (Z * Z) :=
  filter (λ idx, Is_true (overlap (tile g tile_shape idx) poly))
         (cprod (seqZ 0 (ceil_div (ny g) (Py.item tile_shape 0)))
                (seqZ 0 (ceil_div (nx g) (Py.item tile_shape 1)))).

(** The window of [src] that [dst] overlaps, in pixels of [src]. *)
Definition roi (src dst : Box) : Box :=
  let y_lo := Z.max (oy src) (oy dst) in
  let x_lo := Z.max (ox src) (ox dst) in
  {| oy := y_lo - oy src; ox := x_lo - ox src;
     ny := Z.max 0 (Z.min (oy src + ny src) (oy dst + ny dst) - y_lo);
     nx := Z.max 0 (Z.min (ox src + nx src) (ox dst + nx dst) - x_lo) |}.

Definition window (g r : Box) : Box :=
  {| oy := oy g + oy r; ox := ox g + ox r; ny := ny r; nx := nx r |}.

(** Chunks of size [chunk] and one shorter chunk for the remainder. *)
Definition unpack (chunk N : Z) : list Z :=
  if decide (N ≤ chunk ∨ chunk ≤ 0) then [N]
  else replicate (Z.to_nat (N / chunk)) chunk
       ++ (if decide (N mod chunk = 0) then [] else [N mod chunk]).

Definition fresh (prefix : string) (w : nat) : string * nat :=
  (prefix +:+ "-" +:+ pretty w, S w).

Definition crop (src : DaskArray Box string) (r : Box) (axis : Z)
    (w : nat) : DaskArray Box string * nat :=
  let '(name, w') := fresh "crop_2d" w in
  (Array ∅ [src] name
         (take (Z.to_nat axis) (da_chunks src) ++ [[ny r]; [nx r]])
         (da_dtype src)
         (take (Z.to_nat axis) (da_shape src) ++ [ny r; nx r]), w').

(** Nearest-neighbour resampling on the lattice: a cell of the
    destination takes the cell of the source at the same place of the
    lattice, or the destination nodata (0 without) outside the source.
    Axes before row/col are bands, each resampled like the others. *)
Definition nearest (src dst : ndarray Z) (sg dg : Box) (rs : string)
    (sn dn : option NodataType) : list Z :=
  let fill := match dn with Some (NdInt z) => z | _ => 0 end in
  let bands := Np.size (take (length (nd_shape dst) - 2) (nd_shape dst)) in
  b ← seq 0 bands; y ← seqZ 0 (ny dg); x ← seqZ 0 (nx dg);
  let ly := oy dg + y - oy sg in
  let lx := ox dg + x - ox sg in
  if decide (0 ≤ ly < ny sg ∧ 0 ≤ lx < nx sg) then
    [nth (b * Z.to_nat (ny sg * nx sg) + Z.to_nat (ly * nx sg + lx))%nat
         (nd_data src) fill]
  else [fill].

(** The grid that the coordinates of [y] and [x] span. *)
Definition box_of_coords (dims : list string) (coords : gmap string (list Z))
  : option Box :=
  match coords !! "y"%string, coords !! "x"%string with
  | Some (y0 :: ys), Some (x0 :: xs) =>
      Some {| oy := y0; ox := x0; ny := Py.len (y0 :: ys);
              nx := Py.len (x0 :: xs) |}
  | _, _ => None
  end.

Definition pixels : Collaborators :=
  {| GeoBox := Box; Geometry := Box; Roi := Box; DType := string;
     Coord := list Z; World := nat; Pixel := Z; np_empty_cell := -7;
     rio_reproject := nearest;
     xr_geobox := box_of_coords;
     gbox_shape := λ g, (ny g, nx g);
     gbox_extent := λ g, g;
     gbox_crop := window;
     gbox_dims := λ _, ("y", "x");
     gbox_xr_coords := λ g,
       {[ "y" := seqZ (oy g) (ny g); "x" := seqZ (ox g) (nx g) ]};
     gbt_tiles := tiles;
     gbt_getitem := tile;
     reproject_roi_src := roi;
     spatial_dims := λ dims,
       if decide ("y" ∈ dims ∧ "x" ∈ dims) then Some ("y", "x") else None;
     unpack_chunksize := unpack;
     randomize := fresh;
     crop_2d_dense := crop |}.

(** A 4x4 source in 2x2 chunks, and three time steps of it. *)
Definition grid4 : Box := {| oy := 0; ox := 0; ny := 4; nx := 4 |}.
Definition src4 : DaskArray Box string :=
  Array ∅ [] "src" [[2; 2]; [2; 2]] "int16" [4; 4].
Definition src344 : DaskArray Box string :=
  Array ∅ [] "src" [[1; 1; 1]; [4]; [4]] "int16" [3; 4; 4].
(** The same with a band axis after row/col. *)
Definition src442 : DaskArray Box string :=
  Array ∅ [] "src" [[2; 2]; [2; 2]; [2]] "int16" [4; 4; 2].
(** A destination that overlaps one corner of [grid4], and one that
    is away from it. *)
Definition corner : Box := {| oy := 2; ox := 2; ny := 4; nx := 4 |}.
Definition away : Box := {| oy := 10; ox := 10; ny := 4; nx := 4 |}.

(** [src344] as a [DataArray] over [grid4], with and without a nodata
    attribute. *)
Definition xr344 : DataArray Box string (list Z) :=
  {| xr_data := DaskData src344; xr_name := "nbar";
     xr_coords := {[ "time" := [0; 1; 2]; "y" := seqZ 0 4; "x" := seqZ 0 4 ]};
     xr_dims := ["time"; "y"; "x"];
     xr_attrs := {[ "nodata" := Some (NdInt (-999)) ]} |}.
Definition xr344_bare : DataArray Box string (list Z) :=
  {| xr_data := DaskData src344; xr_name := "nbar";
     xr_coords := {[ "time" := [0; 1; 2]; "y" := seqZ 0 4; "x" := seqZ 0 4 ]};
     xr_dims := ["time"; "y"; "x"];
     xr_attrs := {[ "nodata" := None ]} |}.

Definition row_box : Box := {| oy := 0; ox := 0; ny := 1; nx := 2 |}.
Definition block2212 : ndarray Z :=
  NdArray [2; 2; 1; 2] [1; 2; 3; 4; 5; 6; 7; 8].

End Lattice.

(** Runs of [dask_reproject] on the lattice, from the counter at 0. *)
Module Runs.
Import Lattice.

Definition result_of {A} (r : (Error + A) * nat) (d : A) : A :=
  match r.1 with inr a => a | inl _ => d end.

(** 4x4 onto the overlapping corner, default chunks. *)
Definition onto_corner : DaskArray Box string :=
  Eval vm_compute in
    result_of (dask_reproject (H := pixels) src4 grid4 corner "nearest"
                 None None None 0 "reproject" 0%nat) src4.

(** Three time steps onto the corner, in uneven 3x3 tiles. *)
Definition steps_onto_corner : DaskArray Box string :=
  Eval vm_compute in
    result_of (dask_reproject (H := pixels) src344 grid4 corner "nearest"
                 (Some (3, 3)) (Some (NdInt (-1))) None 1 "reproject" 0%nat)
              src344.


(** Three time steps with a nodata attribute, as a [DataArray]. *)
Definition xr_onto_corner : DataArray Box string (list Z) :=
  Eval vm_compute in
    result_of (xr_reproject_array (H := pixels) xr344 corner "nearest"
                 None None 0%nat) xr344.

(** 4x4 onto a grid that misses it. *)
Definition onto_away : DaskArray Box string :=
  Eval vm_compute in
    result_of (dask_reproject (H := pixels) src4 grid4 away "nearest"
                 None None None 0 "reproject" 0%nat) src4.
End Runs.


(** ** Further vocabulary *)

Section WarpMore.
Context `{Collaborators}.

(** The cropped sources of the first loop of [dask_reproject], one for
    every tile of [tiles] in turn, and the name supply they leave. *)
Fixpoint crops (src : DaskArray GeoBox DType) (src_geobox dst_geobox : GeoBox)
    (chunks : list Z) (axis : Z) (tiles : list (Z * Z)) (w : World)
  : list (DaskArray GeoBox DType) * World :=
  match tiles with
  | [] => ([], w)
  | idx :: tiles' =>
      let roi_src :=
        reproject_roi_src src_geobox (gbt_getitem dst_geobox chunks idx) in
      let '(_src, w1) := crop_2d_dense src roi_src axis w in
      let '(rest, w2) := crops src src_geobox dst_geobox chunks axis tiles' w1 in
      (_src :: rest, w2)
  end.

End WarpMore.

Module MoreRuns.
Import Lattice.

(** The task of [Runs.onto_corner] at its block [(0, 0)]. *)
Definition corner_task : Task Box string :=
  Eval vm_compute in
    default (Full [] (NdInt 0) ""%string)
            (da_layer Runs.onto_corner !! ("reproject-0"%string, [0; 0])).

(** A block of one row of two pixels with two bands after row/col. *)
Definition block_yxb : ndarray Z := NdArray [1; 2; 2] [1; 2; 3; 4].

(** [xr344] without any attribute, and held in memory. *)
Definition xr344_plain : DataArray Box string (list Z) :=
  {| xr_data := DaskData src344; xr_name := "nbar";
     xr_coords := {[ "time" := [0; 1; 2]; "y" := seqZ 0 4; "x" := seqZ 0 4 ]};
     xr_dims := ["time"; "y"; "x"];
     xr_attrs := ∅ |}.
Definition xr344_in_memory : DataArray Box string (list Z) :=
  {| xr_data := NumpyData; xr_name := "nbar";
     xr_coords := {[ "time" := [0; 1; 2]; "y" := seqZ 0 4; "x" := seqZ 0 4 ]};
     xr_dims := ["time"; "y"; "x"];
     xr_attrs := {[ "nodata" := Some (NdInt (-999)) ]} |}.

End MoreRuns.

(** ** [sqs_to_dc.get_uri]: the link of a metadata document *)

Module Sqs.

(** A document as [json.loads] gives it. *)
Inductive Json :=
| JNull
| JBool (b : bool)
| JInt (z : Z)
| JFloat (f : spec_float)
| JStr (s : string)
| JList (l : list Json)
| JDict (d : gmap string Json).

(** Python's truth value of a document. *)
Definition truthy (v : Json) : bool :=
  match v with
  | JNull => false
  | JBool b => b
  | JInt z => negb (z =? 0)
  | JFloat (S754_zero _) => false
  | JFloat _ => true
  | JStr s => negb (String.eqb s "")
  | JList [] => false
  | JList (_ :: _) => true
  | JDict d => negb (Nat.eqb (size d) 0)
  end.

(** [v == s] for a string [s]. *)
Definition eq_str (v : Json) (s : string) : bool :=
  match v with JStr s' => String.eqb s' s | _ => false end.

(** [x.get(k)]: only a dict has [get]; a missing key gives [None]. *)
Definition get (x : Json) (k : string) : Error + Json :=
  match x with
  | JDict d => inr (default JNull (d !! k))
  | _ => inl AttributeError
  end.

(** The characters of a string, each a string of its own. *)
Fixpoint chars (s : string) : list Json :=
  match s with
  | EmptyString => []
  | String c s' => JStr (String c EmptyString) :: chars s'
  end.

(** [for link in x]: the elements of a list, the characters of a
    string, the keys of a dict (strings all, so that their order does
    not show in [get_uri]); anything else is not iterable. *)
Definition iterate (x : Json) : Error + list Json :=
  match x with
  | JList l => inr l
  | JStr s => inr (chars s)
  | JDict d => inr (JStr <$> (map_to_list d).*1)
  | _ => inl TypeError
  end.

(** The loop of [get_uri] (lines 130-133), from the [uri] found so far. *)
Fixpoint get_uri_loop (links : list Json) (rel_value : string) (uri : Json)
  : Error + Json :=
  match links with
  | [] => inr uri
  | link :: links' =>
      match get link "rel" with
      | inl e => inl e
      | inr rel =>
          if truthy rel && eq_str rel rel_value then
            match get link "href" with
            | inl e => inl e
            | inr href => get_uri_loop links' rel_value href
            end
          else get_uri_loop links' rel_value uri
      end
  end.

Definition get_uri (metadata : Json) (rel_value : string) : Error + Json :=
  match get metadata "links" with
  | inl e => inl e
  | inr links =>
      match iterate links with
      | inl e => inl e
      | inr l => get_uri_loop l rel_value JNull
      end
  end.

(** A link that is a dict, and a link whose [rel] is the string [r]. *)
Definition is_link (x : Json) : Prop := ∃ d, x = JDict d.
Definition has_rel (r : string) (x : Json) : Prop :=
  ∃ d, x = JDict d ∧ d !! "rel"%string = Some (JStr r).

(** A STAC-like document with two links of the same [rel]. *)
Definition link (rel href : string) : gmap string Json :=
  {[ "rel" := JStr rel; "href" := JStr href ]}.
Definition two_self : gmap string Json :=
  {[ "id" := JStr "a";
     "links" := JList [ JDict (link "self" "s3://one");
                        JDict (link "parent" "s3://up");
                        JDict (link "self" "s3://two") ] ]}.

End Sqs.

(** ** [odc.dtools._rio]: the options shown to the user *)

Module Rio.

(** The value of a GDAL option. *)
Inductive OptValue :=
| OptStr (s : string)
| OptBool (b : bool)
| OptInt (z : Z).

Definition SECRET_KEYS : list string :=
  ["AWS_ACCESS_KEY_ID"; "AWS_SECRET_ACCESS_KEY"; "AWS_SESSION_TOKEN"].

(** [{k: (v if k not in keys else "xx..xx") for k, v in opts.items()}] *)
Definition _sanitize (opts : gmap string OptValue) (keys : list string)
  : gmap string OptValue :=
  map_imap (λ k v, Some (if decide (k ∉ keys) then v else OptStr "xx..xx"))
           opts.

(** [get_rio_env(sanitize)], given the options of the environment that
    rasterio holds for the thread, [None] when it holds none. *)
Definition get_rio_env (env : option (gmap string OptValue)) (sanitize : bool)
  : gmap string OptValue :=
  match env with
  | None => ∅
  | Some opts => if sanitize then _sanitize opts SECRET_KEYS else opts
  end.

Definition some_env : gmap string OptValue :=
  {[ "AWS_SECRET_ACCESS_KEY" := OptStr "hunter2";
     "GDAL_DISABLE_READDIR_ON_OPEN" := OptStr "EMPTY_DIR" ]}.

End Rio.

(** ** [odc.algo._masking]: the codes of an enumeration's names *)

Module Masking.

(** What the functions raise: a builtin exception, or the
    [ValueError] of [_get_enum_values] with its message, the names of
    the second message being those of a set. *)
Inductive Message :=
| CanNotFind
| NotAllFound (unmatched : gset string).

Inductive Raised :=
| Builtin (e : Error)
| ValueErrorOf (msg : Message).

(** A flags dict: its ['values'] entry, when it has one, and its other
    entries. A dict is kept as its items in insertion order. *)
Record Flags (R V : Type) := mkFlags {
  fl_rest : R;
  fl_values : option V;
}.
Arguments mkFlags {R V}.
Arguments fl_rest {R V}.
Arguments fl_values {R V}.

(** [d[k]] on the items of a dict. *)
Fixpoint getitem {V : Type} (d : list (string * V)) (k : string)
  : Raised + V :=
  match d with
  | [] => inl (Builtin KeyError)
  | (k', v) :: d' => if decide (k' = k) then inr v else getitem d' k
  end.

Section Enum.

(** The codes of a definition are what the product definition holds,
    integers or their text; [int] is Python's conversion of one. *)
Context {K R : Type} (int : K → Error + Z).

(** [{n: int(v) for v, n in items}], from the entries made so far. *)
Fixpoint invert (items : list (K * string)) (out : gmap string Z)
  : Raised + gmap string Z :=
  match items with
  | [] => inr out
  | (v, n) :: items' =>
      match int v with
      | inl e => inl (Builtin e)
      | inr z => invert items' (<[n := z]> out)
      end
  end.

Definition _flags_invert (flags : Flags R (list (K * string)))
  : Raised + Flags R (gmap string Z) :=
  match fl_values flags with
  | None => inl (Builtin KeyError)
  | Some items =>
      match invert items ∅ with
      | inl e => inl e
      | inr values => inr (mkFlags (fl_rest flags) (Some values))
      end
  end.

(** [tuple(values[n] for n in names)] *)
Fixpoint lookup_all (values : gmap string Z) (names : list string)
  : Raised + list Z :=
  match names with
  | [] => inr []
  | n :: names' =>
      match values !! n with
      | None => inl (Builtin KeyError)
      | Some v =>
          match lookup_all values names' with
          | inl e => inl e
          | inr vs => inr (v :: vs)
          end
      end
  end.

(** The loop over [flags_definition.values()] (lines 231-235): the codes
    when a definition has all the names, else the names that the last
    definition lacks. *)
Fixpoint search (names : list string)
    (defs : list (Flags R (list (K * string)))) (unmatched : gset string)
  : Raised + (list Z + gset string) :=
  match defs with
  | [] => inr (inr unmatched)
  | ff :: defs' =>
      match _flags_invert ff with
      | inl e => inl e
      | inr out =>
          match fl_values out with
          | None => inl (Builtin KeyError)
          | Some values =>
              let unmatched := list_to_set names ∖ dom values in
              if decide (size unmatched = 0%nat) then
                match lookup_all values names with
                | inl e => inl e
                | inr vs => inr (inl vs)
                end
              else search names defs' unmatched
          end
      end
  end.

Definition _get_enum_values (names : list string)
    (flags_definition : list (string * Flags R (list (K * string))))
    (flag : string) : Raised + list Z :=
  match (if decide (flag ≠ ""%string) then
           match getitem flags_definition flag with
           | inl e => inl e
           | inr ff => inr [(flag, ff)]
           end
         else inr flags_definition) with
  | inl e => inl e
  | inr flags_definition =>
      match search names (flags_definition.*2) ∅ with
      | inl e => inl e
      | inr (inl vs) => inr vs
      | inr (inr unmatched) =>
          if decide (1 < length flags_definition)%nat then
            inl (ValueErrorOf CanNotFind)
          else inl (ValueErrorOf (NotAllFound unmatched))
      end
  end.

(** A definition that can be inverted: it has values, and each code is
    an integer. *)
Definition invertible (ff : Flags R (list (K * string))) : Prop :=
  ∃ items, fl_values ff = Some items
           ∧ Forall (λ p, ∃ z, int p.1 = inr z) items.

(** The names of a definition. *)
Definition names_of (ff : Flags R (list (K * string))) : list string :=
  match fl_values ff with Some items => items.*2 | None => [] end.

(** [ff] gives the name [n] the code [z]. *)
Definition gives (ff : Flags R (list (K * string))) (n : string) (z : Z)
  : Prop :=
  ∃ items v, fl_values ff = Some items ∧ (v, n) ∈ items ∧ int v = inr z.

End Enum.

(** The codes of the tests: decimal digits as text. *)
Definition digit (a : Ascii.ascii) : option Z :=
  let n := Z.of_N (Ascii.N_of_ascii a) in
  if decide (48 ≤ n ≤ 57) then Some (n - 48) else None.

Fixpoint digits_from (s : string) (acc : Z) : Error + Z :=
  match s with
  | EmptyString => inr acc
  | String a s' =>
      match digit a with
      | None => inl ValueError
      | Some d => digits_from s' (10 * acc + d)
      end
  end.

Definition digits (s : string) : Error + Z :=
  match s with
  | EmptyString => inl ValueError
  | _ => digits_from s 0
  end.

(** Two enumerations, as in the tests of the module. *)
Definition cats : Flags (list Z) (list (string * string)) :=
  mkFlags [0; 1; 2; 3; 4; 5; 6; 7]
          (Some [("0", "cat_0"); ("1", "cat_1"); ("12", "cat_12")])%string.
Definition dogs : Flags (list Z) (list (string * string)) :=
  mkFlags [0; 1; 2; 3; 4; 5; 6; 7]
          (Some [("0", "dog_0"); ("1", "dog_1"); ("13", "dog_13")])%string.
Definition pets : list (string * Flags (list Z) (list (string * string))) :=
  [("cat", cats); ("dog", dogs)]%string.

(** A definition whose second code is no integer, and one that has a
    name twice. *)
Definition broken : Flags (list Z) (list (string * string)) :=
  mkFlags [] (Some [("0", "dog_0"); ("x", "dog_13")])%string.
Definition twice : Flags (list Z) (list (string * string)) :=
  mkFlags [] (Some [("1", "water"); ("2", "cloud"); ("5", "water")])%string.

End Masking.

(** * Properties *)

(** ** Facts about slices and index enumeration *)

Module PyFacts.
Import Py.

Lemma elem_of_ndindex dims k :
  k ∈ ndindex dims ↔ Forall2 (λ i d, 0 ≤ i < d) k dims.
Proof.
  revert k. induction dims as [|d dims IH]; intros k; simpl.
  - rewrite list_elem_of_singleton. split.
    + intros ->. constructor.
    + intros Hk. by inversion Hk.
  - rewrite list_elem_of_bind. split.
    + intros (i & Hk & Hi).
      apply list_elem_of_fmap in Hk as (k' & -> & Hk').
      apply elem_of_seqZ in Hi. constructor; [lia | by apply IH].
    + intros Hk. inversion Hk as [|i ? k' ? Hi Hk']; subst.
      exists i. split.
      * apply list_elem_of_fmap. exists k'. split; [done | by apply IH].
      * apply elem_of_seqZ. lia.
Qed.

Lemma elem_of_ndindex_app d1 d2 k :
  k ∈ ndindex (d1 ++ d2) ↔
  ∃ p q, k = p ++ q ∧ p ∈ ndindex d1 ∧ q ∈ ndindex d2.
Proof.
  rewrite elem_of_ndindex. split.
  - intros Hk. apply Forall2_app_inv_r in Hk as (p & q & Hp & Hq & ->).
    exists p, q. by rewrite !elem_of_ndindex.
  - intros (p & q & -> & Hp & Hq).
    apply elem_of_ndindex in Hp, Hq. by apply Forall2_app.
Qed.

Lemma ndindex_length dims k : k ∈ ndindex dims → length k = length dims.
Proof. rewrite elem_of_ndindex. apply Forall2_length. Qed.

Lemma elem_of_ndindex_pair a b k :
  k ∈ ndindex [a; b] ↔ ∃ r c, k = [r; c] ∧ 0 ≤ r < a ∧ 0 ≤ c < b.
Proof.
  rewrite elem_of_ndindex. split.
  - intros Hk. inversion Hk as [|r ? k1 ? Hr Hk1]; subst.
    inversion Hk1 as [|c ? k2 ? Hc Hk2]; subst. inversion Hk2; subst.
    by exists r, c.
  - intros (r & c & -> & Hr & Hc). do 2 (constructor; [done|]). constructor.
Qed.

Lemma length_slice {A} (l : list A) a b :
  length (slice l a b) =
  Z.to_nat (Z.min (from_option (clip (len l)) (len l) b
                   - from_option (clip (len l)) 0 a)
                  (len l - from_option (clip (len l)) 0 a)).
Proof.
  unfold slice, len. rewrite length_take, length_drop.
  set (n := Z.of_nat (length l)).
  assert (0 ≤ from_option (clip n) 0 a) as Hlo.
  { destruct a as [a|]; simpl; [|lia]. unfold clip. case_decide; lia. }
  lia.
Qed.

Lemma length_slice_eq {A B} (l : list A) (k : list B) a b :
  length l = length k → length (slice l a b) = length (slice k a b).
Proof. intros Hlen. rewrite !length_slice. unfold len. by rewrite Hlen. Qed.

Lemma slice_to {A} (l : list A) a :
  0 ≤ a → slice l None (Some a) = take (Z.to_nat a) l.
Proof.
  intros Ha. unfold slice, clip; simpl. rewrite decide_False by lia.
  rewrite drop_0, Z.sub_0_r.
  destruct (decide (a ≤ Z.of_nat (length l))).
  - by rewrite Z.min_l by lia.
  - rewrite Z.min_r, Nat2Z.id by lia.
    rewrite take_ge by lia. by rewrite take_ge by lia.
Qed.

Lemma slice_from {A} (l : list A) a :
  0 ≤ a → slice l (Some a) None = drop (Z.to_nat a) l.
Proof.
  intros Ha. unfold slice, clip; simpl. rewrite decide_False by lia.
  destruct (decide (a ≤ Z.of_nat (length l))).
  - rewrite Z.min_l by lia. apply take_ge. rewrite length_drop. lia.
  - rewrite Z.min_r, Nat2Z.id by lia.
    rewrite drop_ge by lia. rewrite (drop_ge l (Z.to_nat a)) by lia.
    by rewrite take_nil.
Qed.

Lemma slice_two {A} (l : list A) a :
  0 ≤ a → slice l (Some a) (Some (a + 2)) = take 2 (drop (Z.to_nat a) l).
Proof.
  intros Ha. unfold slice, clip; simpl. rewrite !decide_False by lia.
  set (n := Z.of_nat (length l)).
  destruct (decide (a ≤ n)).
  - rewrite (Z.min_l a) by lia.
    destruct (decide (a + 2 ≤ n)).
    + rewrite Z.min_l by lia. f_equal. lia.
    + rewrite Z.min_r by lia.
      rewrite take_ge by (rewrite length_drop; lia).
      by rewrite take_ge by (rewrite length_drop; lia).
  - rewrite !Z.min_r by lia. subst n. rewrite Nat2Z.id.
    rewrite drop_ge by lia. rewrite (drop_ge l (Z.to_nat a)) by lia.
    by rewrite !take_nil.
Qed.

Lemma slice_two_nil {A} a : slice (@nil A) (Some a) (Some (a + 2)) = [].
Proof. unfold slice. by rewrite drop_nil, take_nil. Qed.

Lemma slice_two_neg {A} (l : list A) a :
  a < 0 → length (slice l (Some a) (Some (a + 2))) = 2%nat → a + 2 < 0.
Proof.
  intros Ha. rewrite length_slice. unfold len, clip; simpl.
  repeat case_decide; lia.
Qed.

Lemma slice_from_neg {A} (l : list A) a :
  a < 0 → slice l (Some a) None = [] → l = [].
Proof.
  intros Ha Hnil. apply (f_equal length) in Hnil.
  rewrite length_slice in Hnil. unfold len, clip in Hnil; simpl in Hnil.
  rewrite decide_True in Hnil by done.
  apply length_zero_iff_nil. lia.
Qed.

End PyFacts.

(** ** The two loops of [dask_reproject] *)

Section Loops.
Context `{Collaborators}.
Implicit Types (dsk : gmap Key (Task GeoBox DType)) (k : Key).

Lemma lookup_foldl_insert_ne {A} (f : A → Key) (g : A → Task GeoBox DType)
    (L : list A) dsk k :
  (∀ a, a ∈ L → f a ≠ k) →
  foldl (λ d a, <[f a := g a]> d) dsk L !! k = dsk !! k.
Proof.
  revert dsk. induction L as [|a L IH]; intros dsk Hne; simpl; [done|].
  rewrite IH by (intros; apply Hne; by right).
  apply lookup_insert_ne, Hne. by left.
Qed.

Lemma lookup_foldl_insert `{EqDecision A} (f : A → Key) (g : A → Task GeoBox DType)
    (L : list A) dsk a :
  (∀ b, b ∈ L → f b = f a → b = a) →
  a ∈ L →
  foldl (λ d a, <[f a := g a]> d) dsk L !! f a = Some (g a).
Proof.
  revert dsk. induction L as [|b L IH]; intros dsk Hinj Ha; simpl.
  - by apply elem_of_nil in Ha.
  - assert (∀ b', b' ∈ L → f b' = f a → b' = a) as Hinj'
      by (intros; apply Hinj; [by right|done]).
    destruct (decide (a ∈ L)) as [HaL | HaL]; [by apply IH|].
    apply elem_of_cons in Ha as [-> | ?]; [|done].
    rewrite lookup_foldl_insert_ne; [apply lookup_insert_eq|].
    intros b' Hb' Heq. apply Hinj' in Heq; [by subst|done].
Qed.

Lemma length_yx p : length (yx p) = 2%nat.
Proof. done. Qed.

Lemma yx_inj p q : yx p = yx q → p = q.
Proof. destruct p, q. unfold yx; simpl. by intros [= -> ->]. Qed.

Lemma tile_key_inj dims1 ii1 ii1' idx idx' :
  ii1 ∈ Py.ndindex dims1 → ii1' ∈ Py.ndindex dims1 →
  ii1 ++ yx idx = ii1' ++ yx idx' → ii1 = ii1' ∧ idx = idx'.
Proof.
  intros H1 H2 Heq.
  apply PyFacts.ndindex_length in H1, H2.
  apply app_inj_1 in Heq as [-> Heq]; [|congruence].
  split; [done | by apply yx_inj].
Qed.

Section FirstLoop.
Variables (src : DaskArray GeoBox DType) (src_geobox dst_geobox : GeoBox)
  (chunks : list Z) (resampling : string)
  (src_nodata dst_nodata : option NodataType) (axis : Z)
  (name : string) (dims1 : list Z).

Local Abbreviation body :=
  (add_tile src src_geobox dst_geobox chunks resampling
            src_nodata dst_nodata axis name dims1).
Local Abbreviation the_task :=
  (tile_task src_geobox dst_geobox chunks resampling
             src_nodata dst_nodata axis).

Lemma add_tile_inv idx dsk deps w :
  ∃ _src w',
    crop_2d_dense src
      (reproject_roi_src src_geobox (gbt_getitem dst_geobox chunks idx))
      axis w = (_src, w') ∧
    body idx (dsk, deps) w =
      (inr (foldl (λ d ii1, <[(name, ii1 ++ yx idx) :=
                                the_task (da_name _src) ii1 idx]> d)
                  dsk (Py.ndindex dims1),
            deps ++ [_src]), w').
Proof.
  unfold add_tile, bind, lift, ret.
  destruct (crop_2d_dense _ _ _ w) as [_src w'] eqn:Hcrop.
  by exists _src, w'.
Qed.

Lemma first_loop_total tiles st w :
  ∃ st' w', for_each tiles body st w = (inr st', w').
Proof.
  revert st w. induction tiles as [|idx tiles IH]; intros [dsk deps] w;
    cbn [for_each]; [by eexists _, _|].
  destruct (add_tile_inv idx dsk deps w) as (_src & w' & _ & Hbody).
  unfold bind at 1. rewrite Hbody. apply IH.
Qed.

Lemma first_loop_other tiles dsk deps w dsk' deps' w' k :
  for_each tiles body (dsk, deps) w = (inr (dsk', deps'), w') →
  ¬ tile_key name dims1 tiles k →
  dsk' !! k = dsk !! k.
Proof.
  revert dsk deps w. induction tiles as [|idx tiles IH];
    intros dsk deps w Hrun Hk; cbn [for_each] in Hrun.
  - by injection Hrun as -> _ _.
  - destruct (add_tile_inv idx dsk deps w) as (_src & w1 & _ & Hbody).
    unfold bind in Hrun at 1. rewrite Hbody in Hrun.
    erewrite IH; [|exact Hrun|].
    + apply lookup_foldl_insert_ne. intros ii1 Hii1 <-.
      apply Hk. exists ii1, idx. split_and!; [done|by left|done].
    + intros (ii1 & idx' & ? & ? & ->). apply Hk.
      exists ii1, idx'. split_and!; [done|by right|done].
Qed.

Lemma first_loop_tile tiles dsk deps w dsk' deps' w' ii1 idx :
  for_each tiles body (dsk, deps) w = (inr (dsk', deps'), w') →
  ii1 ∈ Py.ndindex dims1 → idx ∈ tiles →
  ∃ sn, dsk' !! (name, ii1 ++ yx idx) = Some (the_task sn ii1 idx).
Proof.
  revert dsk deps w. induction tiles as [|idx0 tiles IH];
    intros dsk deps w Hrun Hii1 Hidx; cbn [for_each] in Hrun.
  - by apply elem_of_nil in Hidx.
  - destruct (add_tile_inv idx0 dsk deps w) as (_src & w1 & _ & Hbody).
    unfold bind in Hrun at 1. rewrite Hbody in Hrun.
    destruct (decide (idx ∈ tiles)) as [Hin | Hnin].
    { eapply IH; eauto. }
    apply elem_of_cons in Hidx as [-> | ?]; [|done].
    exists (da_name _src).
    erewrite first_loop_other; [|exact Hrun|].
    + apply (lookup_foldl_insert
               (λ ii1, (name, ii1 ++ yx idx0))
               (λ ii1, the_task (da_name _src) ii1 idx0)); [|done].
      intros b Hb [= Heq]. by apply app_inv_tail in Heq.
    + intros (ii1' & idx' & Hii1' & Hidx' & [= Heq]).
      apply (tile_key_inj dims1) in Heq as [_ ->]; done.
Qed.

(** Every task of the first loop is a resample task. *)
Lemma first_loop_tasks tiles dsk deps w dsk' deps' w' k t :
  for_each tiles body (dsk, deps) w = (inr (dsk', deps'), w') →
  dsk' !! k = Some t →
  dsk !! k = Some t ∨
  ∃ sn ii1 idx, ii1 ∈ Py.ndindex dims1 ∧ idx ∈ tiles
                ∧ k = (name, ii1 ++ yx idx) ∧ t = the_task sn ii1 idx.
Proof.
  intros Hrun Hk.
  destruct (decide (Exists (λ p, k = (name, p.1 ++ yx p.2))
                           (cprod (Py.ndindex dims1) tiles)))
    as [Hyes | Hno].
  - apply Exists_exists in Hyes as ((ii1 & idx) & Hp & ->).
    apply list_elem_of_cprod in Hp as [Hii1 Hidx]; simpl in *.
    destruct (first_loop_tile _ _ _ _ _ _ _ _ _ Hrun Hii1 Hidx)
      as [sn Hsn].
    right. exists sn, ii1, idx. split_and!; try done. congruence.
  - left. rewrite <- Hk. symmetry.
    eapply first_loop_other; [exact Hrun|].
    intros (ii1 & idx & ? & ? & ->). apply Hno.
    apply Exists_exists. exists (ii1, idx).
    split; [|done]. by apply list_elem_of_cprod.
Qed.

End FirstLoop.

(** The second loop leaves registered keys alone and fills the others. *)
Section SecondLoop.
Variables (name : string) (dst_chunks : list (list Z))
  (mk_empty : list Z → Task GeoBox DType).

Lemma second_loop_kept L dsk k t :
  dsk !! k = Some t →
  foldl (add_empty name dst_chunks mk_empty) dsk L !! k = Some t.
Proof.
  revert dsk. induction L as [|idx L IH]; intros dsk Hk; simpl; [done|].
  apply IH. unfold add_empty. case_decide as Hnone; [|done].
  rewrite lookup_insert_ne; [done|]. intros <-. congruence.
Qed.

Lemma second_loop_filled L dsk idx :
  dsk !! (name, idx) = None → idx ∈ L →
  foldl (add_empty name dst_chunks mk_empty) dsk L !! (name, idx)
  = Some (mk_empty (zip_with Py.item dst_chunks idx)).
Proof.
  revert dsk. induction L as [|idx0 L IH]; intros dsk Hk Hin; simpl.
  - by apply elem_of_nil in Hin.
  - destruct (decide (idx0 = idx)) as [-> | Hne].
    + apply second_loop_kept. unfold add_empty.
      rewrite decide_True by done. apply lookup_insert_eq.
    + apply elem_of_cons in Hin as [-> | Hin]; [done|].
      apply IH; [|done]. unfold add_empty. case_decide; [|done].
      rewrite lookup_insert_ne; [done | congruence].
Qed.

Lemma second_loop_tasks L dsk k t :
  foldl (add_empty name dst_chunks mk_empty) dsk L !! k = Some t →
  dsk !! k = Some t ∨
  ∃ idx, idx ∈ L ∧ k = (name, idx) ∧ dsk !! k = None
         ∧ t = mk_empty (zip_with Py.item dst_chunks idx).
Proof.
  destruct (dsk !! k) as [t'|] eqn:Hk.
  - rewrite (second_loop_kept L dsk k t' Hk). intros [= ->]. by left.
  - destruct k as [n idx].
    destruct (decide (n = name ∧ idx ∈ L)) as [[-> Hin] | Hno].
    + rewrite second_loop_filled by done. intros [= <-].
      right. by exists idx.
    + intros Hsome. exfalso. revert dsk Hk Hsome.
      induction L as [|idx0 L IH]; intros dsk Hk; simpl; [congruence|].
      apply IH.
      * intros [-> Hin]. apply Hno. split; [done | by right].
      * unfold add_empty. case_decide; [|done].
        rewrite lookup_insert_ne; [done|].
        intros [= <- <-]. apply Hno. split; [done | by left].
Qed.

End SecondLoop.

End Loops.

(** ** [dask_reproject]: the run and its preconditions *)

Section Run.
Context `{Collaborators}.
Implicit Types (src : DaskArray GeoBox DType) (w : World).

(** The function, with its locals named. *)
Lemma dask_reproject_run src sg dg rs chunks sn dn axis name w :
  dask_reproject src sg dg rs chunks sn dn axis name w =
  if bool_decide (Py.slice (da_shape src) (Some axis) (Some (axis + 2))
                  = yx (gbox_shape sg)) then
    if bool_decide (dims2_of src dg chunks axis = []) then
      let '(name', w1) := randomize name w in
      match for_each (tiles_with_data src sg dg chunks axis)
              (add_tile src sg dg (resolve_chunks src chunks axis) rs
                        sn (resolve_nodata sn dn) axis name'
                        (dims1_of src dg chunks axis))
              (∅, [src]) w1 with
      | (inl e, w2) => (inl e, w2)
      | (inr (dsk, deps), w2) =>
          (inr (Array
                  (foldl (add_empty name' (dst_chunks_of src dg chunks axis)
                            (λ bshape, Full bshape
                               (fill_value_of (resolve_nodata sn dn))
                               (da_dtype src)))
                         dsk
                         (Py.ndindex
                            (Py.len <$> dst_chunks_of src dg chunks axis)))
                  deps name' (dst_chunks_of src dg chunks axis)
                  (da_dtype src) (dst_shape_of src dg axis)), w2)
      end
    else (inl AssertionError, w)
  else (inl AssertionError, w).
Proof.
  unfold dask_reproject, bind, assert_, lift, ret, raise.
  case_bool_decide; [|done].
  fold (resolve_chunks src chunks axis).
  fold (yx_chunks_of src dg chunks axis).
  fold (dst_chunks_of src dg chunks axis).
  fold (dims2_of src dg chunks axis).
  case_bool_decide; [|done].
  destruct (randomize name w) as [name' w1].
  fold (tiles_with_data src sg dg chunks axis).
  fold (resolve_nodata sn dn).
  fold (dims1_of src dg chunks axis).
  destruct (for_each _ _ _ w1) as [[e | [dsk deps]] w2]; done.
Qed.
(** What the two assertions say about a well-formed source. *)
Lemma preconditions src sg dg chunks axis :
  well_formed src →
  Py.slice (da_shape src) (Some axis) (Some (axis + 2))
    = yx (gbox_shape sg) →
  dims2_of src dg chunks axis = [] →
  0 ≤ axis
  ∧ length (da_shape src) = (Z.to_nat axis + 2)%nat
  ∧ da_shape src = take (Z.to_nat axis) (da_shape src) ++ yx (gbox_shape sg)
  ∧ (∃ c0 c1, resolve_chunks src chunks axis = [c0; c1])
  ∧ dst_chunks_of src dg chunks axis
    = take (Z.to_nat axis) (da_chunks src)
      ++ yx_chunks_of src dg chunks axis
  ∧ dst_shape_of src dg axis
    = take (Z.to_nat axis) (da_shape src) ++ yx (gbox_shape dg)
  ∧ dims1_of src dg chunks axis
    = Py.len <$> take (Z.to_nat axis) (da_chunks src).
Proof.
  intros Hwf Hs Hd2. unfold well_formed in Hwf.
  assert (length (Py.slice (da_shape src) (Some axis) (Some (axis + 2)))
          = 2%nat) as Hlen2 by by rewrite Hs.
  assert (length (resolve_chunks src chunks axis) = 2%nat) as Hrc.
  { unfold resolve_chunks. destruct chunks as [c|]; [done|].
    rewrite <- Hlen2. apply PyFacts.length_slice_eq.
    unfold da_chunksize. by rewrite length_fmap. }
  assert (length (yx_chunks_of src dg chunks axis) = 2%nat) as Hyc.
  { unfold yx_chunks_of. rewrite length_zip_with, Hrc. done. }
  unfold dims2_of in Hd2. apply fmap_nil_inv in Hd2.
  assert (0 ≤ axis) as Hax.
  { destruct (decide (0 ≤ axis)) as [|Hneg]; [done|]. exfalso.
    apply PyFacts.slice_two_neg in Hlen2; [|lia].
    apply PyFacts.slice_from_neg in Hd2; [|lia].
    apply (f_equal length) in Hd2. unfold dst_chunks_of in Hd2.
    rewrite !length_app, Hyc in Hd2. simpl in Hd2. lia. }
  rewrite PyFacts.slice_two in Hs by done.
  assert (Z.to_nat axis + 2 ≤ length (da_shape src))%nat as Hge.
  { apply (f_equal length) in Hs. rewrite length_take, length_drop in Hs.
    rewrite length_yx in Hs. lia. }
  assert (dst_chunks_of src dg chunks axis
          = take (Z.to_nat axis) (da_chunks src)
            ++ yx_chunks_of src dg chunks axis
            ++ drop (Z.to_nat (axis + 2)) (da_chunks src)) as Hdc.
  { unfold dst_chunks_of.
    by rewrite PyFacts.slice_to, PyFacts.slice_from by lia. }
  rewrite PyFacts.slice_from in Hd2 by lia.
  rewrite Hdc in Hd2. rewrite app_assoc in Hd2.
  rewrite drop_app_length' in Hd2
    by (rewrite length_app, length_take, Hyc; lia).
  apply (f_equal length) in Hd2. rewrite length_drop in Hd2. simpl in Hd2.
  assert (length (da_shape src) = (Z.to_nat axis + 2)%nat) as Hlen by lia.
  assert (drop (Z.to_nat (axis + 2)) (da_chunks src) = []) as Hcn
    by (apply drop_ge; lia).
  assert (drop (Z.to_nat (axis + 2)) (da_shape src) = []) as Hsn
    by (apply drop_ge; lia).
  split_and!; try done.
  - rewrite <- (take_drop (Z.to_nat axis) (da_shape src)) at 1.
    f_equal. rewrite <- Hs. symmetry. apply take_ge.
    rewrite length_drop. lia.
  - destruct (resolve_chunks src chunks axis) as [|c0 [|c1 [|]]];
      try done. by exists c0, c1.
  - by rewrite Hdc, Hcn, app_nil_r.
  - unfold dst_shape_of.
    by rewrite PyFacts.slice_to, PyFacts.slice_from, Hsn, app_nil_r by lia.
  - unfold dims1_of. rewrite PyFacts.slice_to by done.
    rewrite Hdc. rewrite take_app_length'; [done|].
    rewrite length_take. lia.
Qed.

(** On a well-formed source the two assertions are the preconditions. *)
Lemma dims2_nil_iff src sg dg chunks axis :
  well_formed src →
  Py.slice (da_shape src) (Some axis) (Some (axis + 2))
    = yx (gbox_shape sg) →
  dims2_of src dg chunks axis = []
  ↔ Py.slice (da_shape src) (Some (axis + 2)) None = [].
Proof.
  intros Hwf Hs. split.
  - intros Hd2.
    destruct (preconditions src sg dg chunks axis Hwf Hs Hd2)
      as (Hax & Hlen & _).
    rewrite PyFacts.slice_from by lia. apply drop_ge. lia.
  - intros Hnil.
    assert (length (Py.slice (da_shape src) (Some axis) (Some (axis + 2)))
            = 2%nat) as Hlen2 by by rewrite Hs.
    assert (0 ≤ axis) as Hax.
    { destruct (decide (0 ≤ axis)) as [|Hneg]; [done|]. exfalso.
      apply PyFacts.slice_two_neg in Hlen2; [|lia].
      apply PyFacts.slice_from_neg in Hnil; [|lia].
      rewrite Hnil in Hs. by rewrite PyFacts.slice_two_nil in Hs. }
    rewrite PyFacts.slice_two in Hs by done.
    rewrite PyFacts.slice_from in Hnil by lia.
    apply (f_equal length) in Hs, Hnil.
    rewrite length_take, length_drop in Hs. rewrite length_drop in Hnil.
    rewrite length_yx in Hs. simpl in Hnil. unfold well_formed in Hwf.
    assert (length (yx_chunks_of src dg chunks axis) = 2%nat) as Hyc.
    { unfold yx_chunks_of. rewrite length_zip_with.
      unfold resolve_chunks. destruct chunks as [c|]; [done|].
      rewrite PyFacts.slice_two by done.
      rewrite length_take, length_drop. unfold da_chunksize.
      rewrite length_fmap, length_yx. lia. }
    unfold dims2_of, dst_chunks_of.
    rewrite PyFacts.slice_to, !PyFacts.slice_from by lia.
    rewrite app_assoc, drop_app_length'
      by (rewrite length_app, length_take, Hyc; lia).
    rewrite drop_ge by lia. done.
Qed.


(** A run that returns went through both assertions, drew its name,
    ran the first loop to the end and then the second. *)
Lemma dask_reproject_inv src sg dg rs chunks sn dn axis name w out w' :
  dask_reproject src sg dg rs chunks sn dn axis name w = (inr out, w') →
  Py.slice (da_shape src) (Some axis) (Some (axis + 2))
    = yx (gbox_shape sg)
  ∧ dims2_of src dg chunks axis = []
  ∧ ∃ w1 dsk1,
      randomize name w = (da_name out, w1)
      ∧ for_each (tiles_with_data src sg dg chunks axis)
          (add_tile src sg dg (resolve_chunks src chunks axis) rs
                    sn (resolve_nodata sn dn) axis (da_name out)
                    (dims1_of src dg chunks axis))
          (∅, [src]) w1 = (inr (dsk1, da_dependencies out), w')
      ∧ da_layer out
        = foldl (add_empty (da_name out) (dst_chunks_of src dg chunks axis)
                   (λ bshape, Full bshape
                      (fill_value_of (resolve_nodata sn dn))
                      (da_dtype src)))
                dsk1
                (Py.ndindex (Py.len <$> dst_chunks_of src dg chunks axis))
      ∧ da_chunks out = dst_chunks_of src dg chunks axis
      ∧ da_dtype out = da_dtype src
      ∧ da_shape out = dst_shape_of src dg axis.
Proof.
  rewrite dask_reproject_run.
  case_bool_decide as Hs; [|done]. case_bool_decide as Hd2; [|done].
  destruct (randomize name w) as [name' w1].
  destruct (for_each _ _ _ w1) as [[e | [dsk deps]] w2] eqn:Hloop; [done|].
  intros [= <- <-]. simpl. split_and!; try done.
  by exists w1, dsk.
Qed.

(** The assertions are the only way to fail. *)
Lemma dask_reproject_returns src sg dg rs chunks sn dn axis name w :
  well_formed src → valid_input src sg axis →
  ∃ out w', dask_reproject src sg dg rs chunks sn dn axis name w
            = (inr out, w').
Proof.
  intros Hwf [Hs Hnil]. rewrite dask_reproject_run.
  rewrite bool_decide_eq_true_2 by done.
  rewrite bool_decide_eq_true_2 by by eapply dims2_nil_iff.
  destruct (randomize name w) as [name' w1].
  edestruct (first_loop_total src sg dg) as ([dsk deps] & w2 & ->).
  by eexists _, _.
Qed.

Lemma dask_reproject_raises src sg dg rs chunks sn dn axis name w :
  well_formed src → ¬ valid_input src sg axis →
  dask_reproject src sg dg rs chunks sn dn axis name w
  = (inl AssertionError, w).
Proof.
  intros Hwf Hbad. rewrite dask_reproject_run.
  case_bool_decide as Hs; [|done]. case_bool_decide as Hd2; [|done].
  destruct Hbad. split; [done|]. by eapply dims2_nil_iff.
Qed.

End Run.

(** ** The graph that [dask_reproject] returns *)

Section Graph.
Context `{Collaborators}.
Implicit Types (src out : DaskArray GeoBox DType) (w : World).

(** The block indexes of the output are a leading block index followed
    by a tile index. *)
Lemma block_index_split src sg dg chunks axis idx :
  well_formed src →
  Py.slice (da_shape src) (Some axis) (Some (axis + 2))
    = yx (gbox_shape sg) →
  dims2_of src dg chunks axis = [] →
  idx ∈ Py.ndindex (Py.len <$> dst_chunks_of src dg chunks axis) →
  ∃ ii1 r c, idx = ii1 ++ [r; c]
             ∧ ii1 ∈ Py.ndindex (dims1_of src dg chunks axis)
             ∧ length ii1 = Z.to_nat axis.
Proof.
  intros Hwf Hs Hd2 Hidx.
  destruct (preconditions src sg dg chunks axis Hwf Hs Hd2)
    as (Hax & Hlen & _ & (c0 & c1 & Hrc) & Hdc & _ & Hd1).
  rewrite Hdc, fmap_app, <- Hd1 in Hidx.
  apply PyFacts.elem_of_ndindex_app in Hidx as (ii1 & q & -> & Hii1 & Hq).
  unfold yx_chunks_of in Hq. rewrite Hrc in Hq. simpl in Hq.
  apply PyFacts.elem_of_ndindex_pair in Hq as (r & c & -> & _).
  exists ii1, r, c. split_and!; [done..|].
  apply PyFacts.ndindex_length in Hii1. rewrite Hii1, Hd1.
  rewrite length_fmap, length_take. unfold well_formed in Hwf. lia.
Qed.

(** The task at every block index of the output. *)
Lemma layer_at_block src sg dg rs chunks sn dn axis name w out w' idx :
  well_formed src →
  dask_reproject src sg dg rs chunks sn dn axis name w = (inr out, w') →
  idx ∈ Py.ndindex (Py.len <$> da_chunks out) →
  ∃ ii1 r c,
    idx = ii1 ++ [r; c] ∧ length ii1 = Z.to_nat axis
    ∧ ((r, c) ∈ tiles_with_data src sg dg chunks axis →
       ∃ sname, da_layer out !! (da_name out, idx)
                = Some (tile_task sg dg (resolve_chunks src chunks axis) rs
                          sn (resolve_nodata sn dn) axis sname ii1 (r, c)))
    ∧ ((r, c) ∉ tiles_with_data src sg dg chunks axis →
       da_layer out !! (da_name out, idx)
       = Some (Full (zip_with Py.item (da_chunks out) idx)
                    (fill_value_of (resolve_nodata sn dn))
                    (da_dtype out))).
Proof.
  intros Hwf Hrun Hidx.
  apply dask_reproject_inv in Hrun
    as (Hs & Hd2 & w1 & dsk1 & _ & Hloop & -> & Hch & Hdt & _).
  rewrite Hch in Hidx |- *. rewrite Hdt.
  destruct (block_index_split _ _ _ _ _ _ Hwf Hs Hd2 Hidx)
    as (ii1 & r & c & -> & Hii1 & Hlen).
  exists ii1, r, c. split_and!; [done..| |].
  - intros Hin.
    destruct (first_loop_tile _ _ _ _ _ _ _ _ _ _ _ _ _ _ _ _ _ _ _
                Hloop Hii1 Hin) as [sname Hsn].
    exists sname. by apply second_loop_kept.
  - intros Hnin. apply second_loop_filled; [|done].
    erewrite first_loop_other; [apply lookup_empty | exact Hloop |].
    intros (ii1' & idx' & Hii1' & Hidx' & [= Heq]).
    change [r; c] with (yx (r, c)) in Heq.
    apply (tile_key_inj _ _ _ _ _ Hii1 Hii1') in Heq as [_ <-]. done.
Qed.

(** Every task of the graph is keyed by the name of the array, and is
    a resample task of the first loop or a block of the second. *)
Lemma layer_tasks src sg dg rs chunks sn dn axis name w out w' k t :
  dask_reproject src sg dg rs chunks sn dn axis name w = (inr out, w') →
  da_layer out !! k = Some t →
  (∃ sname ii1 idx,
      ii1 ∈ Py.ndindex (dims1_of src dg chunks axis)
      ∧ idx ∈ tiles_with_data src sg dg chunks axis
      ∧ k = (da_name out, ii1 ++ yx idx)
      ∧ t = tile_task sg dg (resolve_chunks src chunks axis) rs
              sn (resolve_nodata sn dn) axis sname ii1 idx)
  ∨ (∃ idx,
      idx ∈ Py.ndindex (Py.len <$> da_chunks out)
      ∧ k = (da_name out, idx)
      ∧ t = Full (zip_with Py.item (da_chunks out) idx)
              (fill_value_of (resolve_nodata sn dn)) (da_dtype out)).
Proof.
  intros Hrun Hk.
  apply dask_reproject_inv in Hrun
    as (Hs & Hd2 & w1 & dsk1 & _ & Hloop & Hlayer & Hch & Hdt & _).
  rewrite Hlayer in Hk. rewrite Hch, Hdt.
  apply second_loop_tasks in Hk as [Hk | (idx & Hidx & -> & _ & ->)].
  - left.
    eapply first_loop_tasks in Hk as [Hk | Hk]; [| |exact Hloop].
    + by rewrite lookup_empty in Hk.
    + destruct Hk as (sname & ii1 & idx & ? & ? & -> & ->).
      by exists sname, ii1, idx.
  - right. by exists idx.
Qed.

End Graph.

(** ** The claims about [dask_reproject] *)

Section Claims.
Context `{Collaborators}.
Implicit Types (src out : DaskArray GeoBox DType) (w : World).

(** C1.  When [dask_reproject] returns, every block index of the
    output (a leading block index followed by a tile index, whatever
    the chunk sizes) has a task in the graph, and that one task is a
    resample task when the tile is among those that meet the footprint
    of the source, and a constant-fill task when it is not. *)
Theorem one_task_per_block
    src sg dg rs chunks sn dn axis name w out w' idx :
  well_formed src →
  dask_reproject src sg dg rs chunks sn dn axis name w = (inr out, w') →
  idx ∈ Py.ndindex (Py.len <$> da_chunks out) →
  ∃ ii1 r c t,
    idx = ii1 ++ [r; c]
    ∧ da_layer out !! (da_name out, idx) = Some t
    ∧ (is_resample t ↔ (r, c) ∈ tiles_with_data src sg dg chunks axis)
    ∧ (is_fill t ↔ (r, c) ∉ tiles_with_data src sg dg chunks axis).
Proof.
  intros Hwf Hrun Hidx.
  destruct (layer_at_block _ _ _ _ _ _ _ _ _ _ _ _ _ Hwf Hrun Hidx)
    as (ii1 & r & c & -> & _ & Hyes & Hno).
  exists ii1, r, c.
  destruct (decide ((r, c) ∈ tiles_with_data src sg dg chunks axis))
    as [Hin | Hnin].
  - destruct (Hyes Hin) as [sname Ht]. eexists. split_and!; [done..| |].
    + by split.
    + split; [intros [] | done].
  - eexists. split_and!; [done | by apply Hno | |].
    + split; [intros [] | done].
    + by split.
Qed.

(** C2.  A source whose row/col extent at [axis] is not the pixel
    shape of the source grid, or whose shape goes on after row/col,
    makes [dask_reproject] raise while it builds: the result is the
    error, no array and so no graph is returned, and no name has been
    drawn and no task registered. *)
Theorem malformed_shape_fails src sg dg rs chunks sn dn axis name w :
  well_formed src →
  Py.slice (da_shape src) (Some axis) (Some (axis + 2))
    ≠ yx (gbox_shape sg)
  ∨ Py.slice (da_shape src) (Some (axis + 2)) None ≠ [] →
  dask_reproject src sg dg rs chunks sn dn axis name w
  = (inl AssertionError, w).
Proof.
  intros Hwf Hbad. apply dask_reproject_raises; [done|].
  intros [Hs Hnil]. by destruct Hbad.
Qed.

(** C3.  When no tile of the destination meets the footprint of the
    source, every block of the returned array is the constant block
    of the fill value (the destination nodata once resolved, or 0
    when there is none), and the graph holds no resample task. *)
Theorem no_overlap_all_fill
    src sg dg rs chunks sn dn axis name w out w' :
  dask_reproject src sg dg rs chunks sn dn axis name w = (inr out, w') →
  tiles_with_data src sg dg chunks axis = [] →
  (∀ idx, idx ∈ Py.ndindex (Py.len <$> da_chunks out) →
     da_layer out !! (da_name out, idx)
     = Some (Full (zip_with Py.item (da_chunks out) idx)
               match dn, sn with
               | Some d, _ => d
               | None, Some s => s
               | None, None => NdInt 0
               end
               (da_dtype out)))
  ∧ (∀ k t, da_layer out !! k = Some t → is_fill t ∧ ¬ is_resample t).
Proof.
  intros Hrun Hnone. split.
  - intros idx Hidx.
    apply dask_reproject_inv in Hrun
      as (_ & _ & w1 & dsk1 & _ & Hloop & -> & Hch & Hdt & _).
    rewrite Hnone in Hloop. injection Hloop as <- _ _.
    rewrite Hch in Hidx |- *. rewrite Hdt.
    rewrite second_loop_filled by (done || apply lookup_empty).
    by destruct dn, sn.
  - intros k t Hk.
    eapply layer_tasks in Hk as [Hk | Hk]; [| |exact Hrun].
    + destruct Hk as (_ & _ & idx & _ & Hidx & _).
      rewrite Hnone in Hidx. by apply elem_of_nil in Hidx.
    + destruct Hk as (idx & _ & _ & ->). simpl. tauto.
Qed.

(** C4.  The destination nodata is the argument or else the source
    nodata; every resample task carries it, and every constant block
    is filled with it, or with the integer 0 when neither nodata is
    given.  Every block without data is such a constant block. *)
Theorem nodata_resolution
    src sg dg rs chunks sn dn axis name w out w' :
  well_formed src →
  dask_reproject src sg dg rs chunks sn dn axis name w = (inr out, w') →
  let resolved := match dn with Some d => Some d | None => sn end in
  let fill := match resolved with Some v => v | None => NdInt 0 end in
  (∀ k t, da_layer out !! k = Some t →
     match t with
     | Reproject _ _ _ _ sn' dn' _ => sn' = sn ∧ dn' = resolved
     | Full _ fv _ => fv = fill
     end)
  ∧ (∀ ii1 r c,
       ii1 ++ [r; c] ∈ Py.ndindex (Py.len <$> da_chunks out) →
       length ii1 = Z.to_nat axis →
       (r, c) ∉ tiles_with_data src sg dg chunks axis →
       ∃ bshape, da_layer out !! (da_name out, ii1 ++ [r; c])
                 = Some (Full bshape fill (da_dtype src))).
Proof.
  intros Hwf Hrun resolved fill.
  assert (resolve_nodata sn dn = resolved) as Hres by by destruct dn.
  assert (fill_value_of (resolve_nodata sn dn) = fill) as Hfill
    by by rewrite Hres.
  split.
  - intros k t Hk.
    eapply layer_tasks in Hk as [Hk | Hk]; [| |exact Hrun].
    + destruct Hk as (sname & ii1 & idx & _ & _ & _ & ->). by simpl.
    + destruct Hk as (idx & _ & _ & ->). by simpl.
  - intros ii1 r c Hidx Hlen Hnin.
    destruct (layer_at_block _ _ _ _ _ _ _ _ _ _ _ _ _ Hwf Hrun Hidx)
      as (ii1' & r' & c' & Heq & Hlen' & _ & Hno).
    apply app_inj_1 in Heq as [<- [= <- <-]]; [|congruence].
    rewrite (Hno Hnin), Hfill.
    apply dask_reproject_inv in Hrun
      as (_ & _ & ? & ? & _ & _ & _ & _ & -> & _).
    by eexists.
Qed.

(** C5.  On a valid input [dask_reproject] returns an array whose
    shape is the source's with row/col replaced by the pixel shape of
    the destination grid, whose chunks are the source's with row/col
    replaced by the tiles of the requested size (the source's row/col
    chunk size when [chunks] is [None]), and whose dtype is the
    source's.  The row/col extent of a block follows from the
    destination grid and the chunk size alone: a constant block has
    that shape, and a resample task writes the tile of the
    destination at that index, whether or not the source meets it. *)
Theorem output_geometry src sg dg rs chunks sn dn axis name w :
  well_formed src → valid_input src sg axis →
  ∃ out w' c0 c1,
    dask_reproject src sg dg rs chunks sn dn axis name w = (inr out, w')
    ∧ [c0; c1] = match chunks with
                 | Some c => [c.1; c.2]
                 | None => Py.slice (da_chunksize src)
                                    (Some axis) (Some (axis + 2))
                 end
    ∧ da_shape out
      = Py.slice (da_shape src) None (Some axis)
        ++ [(gbox_shape dg).1; (gbox_shape dg).2]
        ++ Py.slice (da_shape src) (Some (axis + 2)) None
    ∧ da_chunks out
      = Py.slice (da_chunks src) None (Some axis)
        ++ [unpack_chunksize c0 (gbox_shape dg).1;
            unpack_chunksize c1 (gbox_shape dg).2]
        ++ Py.slice (da_chunks src) (Some (axis + 2)) None
    ∧ da_dtype out = da_dtype src
    ∧ ∀ ii1 r c,
        ii1 ++ [r; c] ∈ Py.ndindex (Py.len <$> da_chunks out) →
        length ii1 = Z.to_nat axis →
        zip_with Py.item (da_chunks out) (ii1 ++ [r; c])
        = zip_with Py.item (Py.slice (da_chunks src) None (Some axis)) ii1
          ++ [Py.item (unpack_chunksize c0 (gbox_shape dg).1) r;
              Py.item (unpack_chunksize c1 (gbox_shape dg).2) c]
        ∧ ∃ t, da_layer out !! (da_name out, ii1 ++ [r; c]) = Some t
               ∧ match t with
                 | Reproject _ _ tile _ _ _ _ =>
                     tile = gbt_getitem dg [c0; c1] (r, c)
                 | Full bshape _ _ =>
                     bshape = zip_with Py.item (da_chunks out)
                                       (ii1 ++ [r; c])
                 end.
Proof.
  intros Hwf Hvalid.
  destruct (dask_reproject_returns src sg dg rs chunks sn dn axis name w
              Hwf Hvalid) as (out & w' & Hrun).
  pose proof Hrun as Hinv. apply dask_reproject_inv in Hinv
    as (Hs & Hd2 & w1 & dsk1 & _ & _ & _ & Hch & Hdt & Hsh).
  destruct (preconditions src sg dg chunks axis Hwf Hs Hd2)
    as (Hax & Hlen & _ & (c0 & c1 & Hrc) & Hdc & _ & _).
  exists out, w', c0, c1. split_and!; [done| |done| |done|].
  - rewrite <- Hrc. by destruct chunks.
  - rewrite Hch. unfold dst_chunks_of, yx_chunks_of. by rewrite Hrc.
  - intros ii1 r c Hidx Hii1.
    assert (length (take (Z.to_nat axis) (da_chunks src)) = length ii1)
      as Hpre.
    { rewrite length_take. unfold well_formed in Hwf. lia. }
    split.
    + rewrite Hch, Hdc. unfold yx_chunks_of. rewrite Hrc.
      rewrite PyFacts.slice_to by done.
      rewrite zip_with_app by done. done.
    + destruct (layer_at_block _ _ _ _ _ _ _ _ _ _ _ _ _ Hwf Hrun Hidx)
        as (ii1' & r' & c' & Heq & Hlen' & Hyes & Hno).
      apply app_inj_1 in Heq as [<- [= <- <-]]; [|congruence].
      destruct (decide ((r, c) ∈ tiles_with_data src sg dg chunks axis))
        as [Hin | Hnin].
      * destruct (Hyes Hin) as [sname ->]. eexists. split; [done|].
        simpl. by rewrite Hrc.
      * rewrite (Hno Hnin). eexists. split; done.
Qed.


(** The shape of the output does not depend on the chunk size asked
    for; only the chunks do. *)
Lemma shape_independent_of_chunks
    src sg dg rs chunks1 chunks2 sn dn axis name w1 w2 out1 out2 w1' w2' :
  dask_reproject src sg dg rs chunks1 sn dn axis name w1 = (inr out1, w1') →
  dask_reproject src sg dg rs chunks2 sn dn axis name w2 = (inr out2, w2') →
  da_shape out1 = da_shape out2 ∧ da_dtype out1 = da_dtype out2.
Proof.
  intros H1 H2.
  apply dask_reproject_inv in H1 as (_ & _ & ? & ? & _ & _ & _ & _ & Hd1 & Hs1).
  apply dask_reproject_inv in H2 as (_ & _ & ? & ? & _ & _ & _ & _ & Hd2 & Hs2).
  split; congruence.
Qed.

End Claims.

Lemma one_task_per_block_witness :
  ∃ ii1 r c t,
    [1; 0] = ii1 ++ [r; c]
    ∧ da_layer Runs.onto_corner !! (da_name Runs.onto_corner, [1; 0]) = Some t
    ∧ (is_resample (H := Lattice.pixels) t
       ↔ (r, c) ∈ tiles_with_data (H := Lattice.pixels)
                    Lattice.src4 Lattice.grid4 Lattice.corner None 0)
    ∧ (is_fill (H := Lattice.pixels) t
       ↔ (r, c) ∉ tiles_with_data (H := Lattice.pixels)
                    Lattice.src4 Lattice.grid4 Lattice.corner None 0).
Proof.
  apply (one_task_per_block (H := Lattice.pixels)
           Lattice.src4 Lattice.grid4 Lattice.corner "nearest" None None None
           0 "reproject" 0%nat Runs.onto_corner 2%nat [1; 0]).
  - reflexivity.
  - vm_compute. reflexivity.
  - vm_compute. do 2 right. left.
Defined.

Lemma malformed_shape_fails_witness :
  dask_reproject (H := Lattice.pixels) Lattice.src442 Lattice.grid4
    Lattice.corner "nearest" None None None 0 "reproject" 0%nat
  = (inl AssertionError, 0%nat).
Proof.
  apply (malformed_shape_fails (H := Lattice.pixels)).
  - reflexivity.
  - right. vm_compute. discriminate.
Defined.

Lemma no_overlap_all_fill_witness :
  da_layer Runs.onto_away !! (da_name Runs.onto_away, [1; 1])
  = Some (Full [2; 2] (NdInt 0) "int16"%string).
Proof.
  apply (proj1 (no_overlap_all_fill (H := Lattice.pixels)
                  Lattice.src4 Lattice.grid4 Lattice.away "nearest"
                  None None None 0 "reproject" 0%nat Runs.onto_away 1%nat
                  ltac:(vm_compute; reflexivity)
                  ltac:(vm_compute; reflexivity)) [1; 1]).
  vm_compute. do 3 right. left.
Defined.

Lemma nodata_resolution_witness :
  ∃ bshape,
    da_layer Runs.steps_onto_corner
      !! (da_name Runs.steps_onto_corner, [0] ++ [1; 1])
    = Some (Full bshape (NdInt (-1)) "int16"%string).
Proof.
  apply (proj2 (nodata_resolution (H := Lattice.pixels)
                  Lattice.src344 Lattice.grid4 Lattice.corner "nearest"
                  (Some (3, 3)) (Some (NdInt (-1))) None 1 "reproject"
                  0%nat Runs.steps_onto_corner 2%nat
                  ltac:(reflexivity)
                  ltac:(vm_compute; reflexivity)) [0] 1 1).
  - vm_compute. do 3 right. left.
  - reflexivity.
  - vm_compute. intros Hin. by apply list_elem_of_singleton in Hin.
Defined.

Lemma output_geometry_witness :
  ∃ out w',
    dask_reproject (H := Lattice.pixels) Lattice.src344 Lattice.grid4
      Lattice.corner "nearest" (Some (3, 3)) None None 1 "reproject" 0%nat
    = (inr out, w')
    ∧ da_shape out = [3; 4; 4]
    ∧ da_chunks out = [[1; 1; 1]; [3; 1]; [3; 1]]
    ∧ da_dtype out = "int16"%string.
Proof.
  destruct (output_geometry (H := Lattice.pixels)
              Lattice.src344 Lattice.grid4 Lattice.corner "nearest"
              (Some (3, 3)) None None 1 "reproject" 0%nat
              ltac:(reflexivity)
              ltac:(split; vm_compute; reflexivity))
    as (out & w' & c0 & c1 & Hrun & [= -> ->] & Hsh & Hch & Hdt & _).
  by exists out, w'.
Defined.


(** ** The claim about [xr_reproject_array] *)

Section Xarray.
Context `{Collaborators}.

Lemma bind_inr {A B} (m : M World A) (k : A → M World B) w b w' :
  bind m k w = (inr b, w') →
  ∃ a w1, m w = (inr a, w1) ∧ k a w1 = (inr b, w').
Proof.
  unfold bind. destruct (m w) as [[e | a] w1]; [done|]. by exists a, w1.
Qed.

(** A loop whose body neither draws names nor registers anything
    leaves the name supply as it found it. *)
Lemma for_each_world {A S} (xs : list A) (body : A → S → M World S) s w r w' :
  (∀ x s w, (body x s w).2 = w) →
  for_each xs body s w = (r, w') → w' = w.
Proof.
  intros Hbody. revert s w. induction xs as [|x xs IH]; intros s w; simpl.
  - by intros [= _ <-].
  - unfold bind at 1. specialize (Hbody x s w).
    destruct (body x s w) as [[e | s'] w1]; simpl in Hbody; subst w1.
    + by intros [= _ <-].
    + apply IH.
Qed.

Lemma xr_nodata_inr (src : DataArray GeoBox DType Coord) w v w' :
  xr_nodata src w = (inr v, w') →
  xr_attrs src !! "nodata"%string = Some v ∧ w' = w.
Proof.
  unfold xr_nodata. destruct (xr_attrs src !! _) as [v'|]; [|done].
  by intros [= -> ->].
Qed.

(** C10.  When [xr_reproject_array] returns, the source had a [nodata]
    attribute; the destination nodata is the argument, or that
    attribute when the argument is [None]; the graph is built by
    [dask_reproject] with it; and the attributes of the result are the
    one entry [nodata] when this value is not [None], and no entry at
    all when it is. *)
Theorem xr_nodata_attribute (src : DataArray GeoBox DType Coord)
    geobox rs chunks dn w out w' :
  xr_reproject_array src geobox rs chunks dn w = (inr out, w') →
  ∃ src_nodata,
    xr_attrs src !! "nodata"%string = Some src_nodata
    ∧ let resolved :=
        match dn with Some d => Some d | None => src_nodata end in
      xr_attrs out = match resolved with
                     | Some v => {[ "nodata"%string := Some v ]}
                     | None => ∅
                     end
      ∧ ∃ a sg axis data,
          xr_data src = DaskData a ∧ xr_data out = DaskData data
          ∧ dask_reproject a sg geobox rs chunks src_nodata resolved axis
              "reproject" w = (inr data, w').
Proof.
  unfold xr_reproject_array. intros Hrun.
  apply bind_inr in Hrun as (dn' & w1 & Hdn & Hrun).
  apply bind_inr in Hrun as (a & w2 & Ha & Hrun).
  apply bind_inr in Hrun as (sg & w3 & Hsg & Hrun).
  apply bind_inr in Hrun as (yx_dims & w4 & Hyx & Hrun).
  apply bind_inr in Hrun as (axis & w5 & Hax & Hrun).
  apply bind_inr in Hrun as (coords & w6 & Hco & Hrun).
  apply bind_inr in Hrun as (sn & w7 & Hsn & Hrun).
  apply bind_inr in Hrun as (data & w8 & Hdata & Hrun).
  injection Hrun as <- <-.
  apply xr_nodata_inr in Hsn as [Hattr ->].
  apply for_each_world in Hco as ->.
  2:{ intros dim c u. case_decide; [|done].
      by destruct (xr_coords src !! dim). }
  destruct (xr_data src) as [a'|] eqn:Hd; [|done]. injection Ha as <- <-.
  destruct (xr_geobox _ _) as [g|]; [|done]. injection Hsg as <- <-.
  destruct (spatial_dims _) as [d|]; [|done]. injection Hyx as <- <-.
  destruct (Py.index _ _) as [i|]; [|done]. injection Hax as <- <-.
  assert (dn' = match dn with Some d => Some d | None => sn end ∧ w1 = w)
    as [-> ->].
  { destruct dn as [d0|].
    - by injection Hdn as <- <-.
    - apply xr_nodata_inr in Hdn as [Hattr' ->]. split; [congruence|done]. }
  exists sn. split; [done|]. simpl. split.
  - by destruct dn, sn.
  - by eexists _, _, _, _.
Qed.

End Xarray.

Lemma xr_nodata_attribute_witness :
  xr_attrs Runs.xr_onto_corner = {[ "nodata"%string := Some (NdInt (-999)) ]}.
Proof.
  destruct (xr_nodata_attribute (H := Lattice.pixels) Lattice.xr344
              Lattice.corner "nearest" None None 0%nat
              Runs.xr_onto_corner 2%nat ltac:(vm_compute; reflexivity))
    as (sn & Hsn & Hattrs & _).
  vm_compute in Hsn. injection Hsn as <-. exact Hattrs.
Defined.

(** ** Arrays in memory *)

Module NpFacts.
Import Np.

Lemma product_app (a b : list Z) :
  foldr Z.mul 1 (a ++ b) = foldr Z.mul 1 a * foldr Z.mul 1 b.
Proof. induction a as [|x a IH]; simpl; [lia | rewrite IH; lia]. Qed.

Lemma product_nonneg (a : list Z) : Forall (λ d, 0 ≤ d) a → 0 ≤ foldr Z.mul 1 a.
Proof. induction 1; simpl; lia. Qed.

Lemma size_app (a b : list Z) :
  Forall (λ d, 0 ≤ d) a → Forall (λ d, 0 ≤ d) b →
  size (a ++ b) = (size a * size b)%nat.
Proof.
  intros Ha Hb. unfold size. rewrite product_app.
  apply Z2Nat.inj_mul; by apply product_nonneg.
Qed.

Lemma length_overwrite {T} (old new : list T) :
  length (overwrite old new) = length old.
Proof.
  unfold overwrite. rewrite length_take, length_app, length_drop. lia.
Qed.

Lemma overwrite_same_length {T} (old new : list T) :
  length new = length old → overwrite old new = new.
Proof.
  intros Hlen. unfold overwrite. rewrite Hlen, drop_all, app_nil_r.
  rewrite <- Hlen. apply firstn_all.
Qed.

(** Strips of [P] consecutive numbers, one after the other. *)
Lemma seqZ_strips (d : nat) (P : Z) :
  0 ≤ P →
  (seqZ 0 (Z.of_nat d) ≫= λ i, seqZ (i * P) P) = seqZ 0 (Z.of_nat d * P).
Proof.
  intros HP. induction d as [|d IH].
  - by rewrite !seqZ_nil by lia.
  - rewrite seqZ_S, bind_app, IH. simpl. rewrite app_nil_r.
    replace (Z.of_nat (S d) * P) with (Z.of_nat d * P + P) by lia.
    rewrite seqZ_app by lia. done.
Qed.

Lemma fmap_over_bind {A B C} (g : B → C) (f : A → list B) (l : list A) :
  g <$> (l ≫= f) = l ≫= λ x, g <$> f x.
Proof.
  induction l as [|x l IH]; csimpl; [done|]. by rewrite fmap_app, IH.
Qed.

(** [np.ndindex] runs through the index tuples in row-major order. *)
Lemma ravel_ndindex (dims : list Z) :
  Forall (λ d, 0 ≤ d) dims →
  ravel dims <$> Py.ndindex dims = seqZ 0 (foldr Z.mul 1 dims).
Proof.
  induction 1 as [|d dims Hd Hdims IH]; [done|].
  cbn [Py.ndindex foldr]. rewrite fmap_over_bind.
  transitivity (seqZ 0 d ≫= λ i, seqZ (i * foldr Z.mul 1 dims)
                                      (foldr Z.mul 1 dims)).
  - apply list_bind_ext; [|done]. intros i.
    rewrite <- list_fmap_compose.
    replace (seqZ (i * foldr Z.mul 1 dims) (foldr Z.mul 1 dims))
      with (seqZ (i * foldr Z.mul 1 dims + 0) (foldr Z.mul 1 dims))
      by (f_equal; lia).
    rewrite <- (fmap_add_seqZ (i * foldr Z.mul 1 dims) 0), <- IH.
    rewrite <- list_fmap_compose. apply list_fmap_ext. intros _ k _.
    done.
  - rewrite <- (Z2Nat.id d) by done. rewrite seqZ_strips.
    + done.
    + by apply product_nonneg.
Qed.

Lemma ravel_ndindex_nat (dims : list Z) :
  Forall (λ d, 0 ≤ d) dims →
  (λ p, Z.to_nat (ravel dims p)) <$> Py.ndindex dims = seq 0 (size dims).
Proof.
  intros Hd.
  rewrite (list_fmap_compose (ravel dims) Z.to_nat), ravel_ndindex by done.
  unfold seqZ, size. rewrite <- list_fmap_compose.
  erewrite list_fmap_ext; [apply list_fmap_id|].
  intros _ n _. simpl. lia.
Qed.

End NpFacts.

(** ** [_reproject_block_impl]: the loop over the leading axes *)

Section Block.
Context `{Collaborators}.
Variables (src : ndarray Pixel) (sg dg : GeoBox) (rs : string)
  (sn dn : option NodataType).
Variables (leading rest : list Z).

Local Abbreviation m := (Np.size rest).
Local Abbreviation fresh_slice := (Np.empty np_empty_cell rest).
Local Abbreviation result := (slice_by_hand src sg dg rs sn dn rest).
Local Abbreviation body := (reproject_slice src sg dg rs sn dn).

Lemma length_result p : length (result p) = m.
Proof.
  unfold slice_by_hand, rio_write, Np.empty; simpl.
  by rewrite NpFacts.length_overwrite, length_replicate.
Qed.

(** Before the slice at position [j] is written, the slices before it
    hold their results and the others are as [np.empty] left them. *)
Lemma block_loop (L : list (list Z)) :
  ∀ (j : nat) (done_cells : list Pixel) calls (k : nat),
    length done_cells = (j * m)%nat →
    (λ p, Z.to_nat (Np.ravel leading p)) <$> L = seq j (length L) →
    Forall (λ p, length p = length leading) L →
    foldl body
      (NdArray (leading ++ rest)
         (done_cells ++ replicate ((length L + k) * m) np_empty_cell), calls) L
    = (NdArray (leading ++ rest)
         (done_cells ++ concat (result <$> L)
          ++ replicate (k * m) np_empty_cell),
       calls ++ ((λ p, (Np.getitem src p, fresh_slice)) <$> L)).
Proof.
  induction L as [|p L IH]; intros j done_cells calls k Hlen Hpos Hall.
  - simpl. by rewrite app_nil_r.
  - apply Forall_cons in Hall as [Hp Hall].
    injection Hpos as Hj Hpos.
    cbn [foldl]. unfold reproject_slice at 2.
    set (data := done_cells ++ replicate ((length (p :: L) + k) * m)
                                         np_empty_cell).
    assert (Np.offset (leading ++ rest) p = (j * m)%nat) as Hoff.
    { unfold Np.offset. rewrite Hp, take_app_length, drop_app_length.
      by rewrite Hj. }
    assert (drop (length p) (leading ++ rest) = rest) as Hrest
      by by rewrite Hp, drop_app_length.
    assert (drop (j * m) data
            = replicate ((length (p :: L) + k) * m) np_empty_cell) as Hdrop.
    { unfold data. rewrite <- Hlen. apply drop_app_length. }
    assert (Np.getitem (NdArray (leading ++ rest) data) p = fresh_slice)
      as Hview.
    { unfold Np.getitem, Np.empty; simpl.
      rewrite Hrest, Hoff, Hdrop. f_equal.
      rewrite take_replicate. f_equal. simpl. lia. }
    rewrite Hview.
    assert (Np.setitem (NdArray (leading ++ rest) data) p
              (nd_data (rio_write (Np.getitem src p) fresh_slice
                                  sg dg rs sn dn))
            = NdArray (leading ++ rest)
                ((done_cells ++ result p)
                 ++ replicate ((length L + k) * m) np_empty_cell)) as Hset.
    { unfold Np.setitem; simpl. rewrite Hrest, Hoff, Hdrop.
      f_equal. rewrite <- app_assoc. f_equal.
      - unfold data. rewrite <- Hlen. apply take_app_length.
      - f_equal.
        + apply NpFacts.overwrite_same_length.
          fold (slice_by_hand src sg dg rs sn dn rest p).
          rewrite length_result, length_take.
          rewrite length_replicate. simpl. lia.
        + unfold data. rewrite <- Hlen, drop_app_add', drop_replicate
            by done. f_equal. simpl. lia. }
    rewrite Hset.
    rewrite (IH (S j) (done_cells ++ result p) _ k); [| |done..].
    + cbn [fmap list_fmap concat]. rewrite <- !app_assoc. done.
    + rewrite length_app, length_result, Hlen. lia.
Qed.

End Block.

Section BlockClaims.
Context `{Collaborators}.

Lemma Forall_slice {A} (P : A → Prop) (l : list A) a b :
  Forall P l → Forall P (Py.slice l a b).
Proof. intros Hl. unfold Py.slice. by apply Forall_take, Forall_drop. Qed.


End BlockClaims.



(** * Further properties of [dask_reproject] *)

Section MoreLoops.
Context `{Collaborators}.
Implicit Types (dsk : gmap Key (Task GeoBox DType)) (k : Key).

Lemma lookup_foldl_insert_inv {A} (f : A → Key) (g : A → Task GeoBox DType)
    (L : list A) dsk k t :
  foldl (λ d a, <[f a := g a]> d) dsk L !! k = Some t →
  dsk !! k = Some t ∨ ∃ a, a ∈ L ∧ k = f a ∧ t = g a.
Proof.
  revert dsk. induction L as [|a L IH]; intros dsk Hk; simpl in Hk; [by left|].
  apply IH in Hk as [Hk | (b & Hb & -> & ->)].
  - destruct (decide (f a = k)) as [<- | Hne].
    + rewrite lookup_insert_eq in Hk. injection Hk as <-.
      right. exists a. split_and!; [by left|done..].
    + rewrite lookup_insert_ne in Hk by done. by left.
  - right. exists b. split_and!; [by right|done..].
Qed.

Section FirstLoopMore.
Variables (src : DaskArray GeoBox DType) (src_geobox dst_geobox : GeoBox)
  (chunks : list Z) (resampling : string)
  (src_nodata dst_nodata : option NodataType) (axis : Z)
  (name : string) (dims1 : list Z).

Local Abbreviation body :=
  (add_tile src src_geobox dst_geobox chunks resampling
            src_nodata dst_nodata axis name dims1).
Local Abbreviation the_task :=
  (tile_task src_geobox dst_geobox chunks resampling
             src_nodata dst_nodata axis).
Local Abbreviation the_crops :=
  (crops src src_geobox dst_geobox chunks axis).

(** The first loop appends its crops to the dependencies, in the order
    of the tiles, and nothing else draws from the name supply. *)
Lemma first_loop_deps tiles dsk deps w dsk' deps' w' :
  for_each tiles body (dsk, deps) w = (inr (dsk', deps'), w') →
  deps' = deps ++ (the_crops tiles w).1 ∧ w' = (the_crops tiles w).2.
Proof.
  revert dsk deps w. induction tiles as [|idx tiles IH];
    intros dsk deps w Hrun; cbn [for_each] in Hrun.
  - injection Hrun as _ <- <-. simpl. by rewrite app_nil_r.
  - destruct (add_tile_inv src src_geobox dst_geobox chunks resampling
                src_nodata dst_nodata axis name dims1 idx dsk deps w)
      as (_src & w1 & Hcrop & Hbody).
    unfold bind in Hrun at 1. rewrite Hbody in Hrun.
    apply IH in Hrun as [-> ->]. cbn [crops]. rewrite Hcrop.
    destruct (the_crops tiles w1) as [rest w2]. simpl.
    by rewrite <- app_assoc.
Qed.

(** Every task that the first loop adds reads a block of one of its
    crops. *)
Lemma first_loop_sources tiles dsk deps w dsk' deps' w' k t :
  for_each tiles body (dsk, deps) w = (inr (dsk', deps'), w') →
  dsk' !! k = Some t →
  dsk !! k = Some t ∨
  ∃ a ii1 idx, a ∈ (the_crops tiles w).1 ∧ ii1 ∈ Py.ndindex dims1
               ∧ idx ∈ tiles ∧ k = (name, ii1 ++ yx idx)
               ∧ t = the_task (da_name a) ii1 idx.
Proof.
  revert dsk deps w. induction tiles as [|idx tiles IH];
    intros dsk deps w Hrun Hk; cbn [for_each] in Hrun.
  - injection Hrun as <- _ _. by left.
  - destruct (add_tile_inv src src_geobox dst_geobox chunks resampling
                src_nodata dst_nodata axis name dims1 idx dsk deps w)
      as (_src & w1 & Hcrop & Hbody).
    unfold bind in Hrun at 1. rewrite Hbody in Hrun.
    cbn [crops]. rewrite Hcrop.
    destruct (the_crops tiles w1) as [rest w2] eqn:Hrest.
    eapply IH in Hk as [Hk | Hk]; [| |exact Hrun].
    + apply lookup_foldl_insert_inv in Hk as [Hk | (ii1 & Hii1 & -> & ->)];
        [by left|].
      right. exists _src, ii1, idx. split_and!; [by left|done|by left|done..].
    + destruct Hk as (a & ii1 & idx' & Ha & ? & ? & -> & ->).
      rewrite Hrest in Ha.
      right. exists a, ii1, idx'.
      split_and!; [by right|done|by right|done..].
Qed.

End FirstLoopMore.
End MoreLoops.


Section MoreClaims.
Context `{Collaborators}.
Implicit Types (src out : DaskArray GeoBox DType) (w : World).



(** X3.  Every resample task of the graph is keyed by a leading block
    index followed by a tile with data, and reads the block at that
    leading index and [(0, 0)] of a cropped source that is among the
    dependencies of the array; it carries the source grid cropped to
    the tile's region of interest, the grid of the tile, and the
    resampling, nodata and axis of the call. *)
Theorem resample_tasks_read_dependencies
    src sg dg rs chunks sn dn axis name w out w' k t :
  dask_reproject src sg dg rs chunks sn dn axis name w = (inr out, w') →
  da_layer out !! k = Some t →
  is_resample t →
  ∃ dep ii1 idx,
    dep ∈ da_dependencies out
    ∧ ii1 ∈ Py.ndindex (dims1_of src dg chunks axis)
    ∧ idx ∈ tiles_with_data src sg dg chunks axis
    ∧ k = (da_name out, ii1 ++ [idx.1; idx.2])
    ∧ t = Reproject (da_name dep, ii1 ++ [0; 0])
            (gbox_crop sg
               (reproject_roi_src sg
                  (gbt_getitem dg (resolve_chunks src chunks axis) idx)))
            (gbt_getitem dg (resolve_chunks src chunks axis) idx)
            rs sn (match dn with Some d => Some d | None => sn end) axis.
Proof.
  intros Hrun Hk Hres.
  apply dask_reproject_inv in Hrun
    as (_ & _ & w1 & dsk1 & _ & Hloop & Hlayer & _).
  rewrite Hlayer in Hk.
  apply second_loop_tasks in Hk as [Hk | (? & _ & _ & _ & ->)]; [|done].
  pose proof (first_loop_deps _ _ _ _ _ _ _ _ _ _ _ _ _ _ _ _ _ Hloop)
    as [Hdeps _].
  eapply first_loop_sources in Hk as [Hk | Hk]; [| |exact Hloop].
  { by rewrite lookup_empty in Hk. }
  destruct Hk as (a & ii1 & idx & Ha & Hii1 & Hidx & -> & ->).
  exists a, ii1, idx. split_and!; [|done..|].
  - rewrite Hdeps. by right.
  - unfold tile_task, resolve_nodata. by destruct dn.
Qed.

(** X4.  Every tile that the tile grid reports gets, for every block
    index of the leading axes, its resample task from one of the
    dependencies, also when the tile lies outside the blocks of the
    output: the builder does not check the tile grid against the
    chunks. *)
Theorem every_tile_has_its_task
    src sg dg rs chunks sn dn axis name w out w' ii1 idx :
  dask_reproject src sg dg rs chunks sn dn axis name w = (inr out, w') →
  ii1 ∈ Py.ndindex (dims1_of src dg chunks axis) →
  idx ∈ tiles_with_data src sg dg chunks axis →
  ∃ dep,
    dep ∈ da_dependencies out
    ∧ da_layer out !! (da_name out, ii1 ++ [idx.1; idx.2])
      = Some (Reproject (da_name dep, ii1 ++ [0; 0])
                (gbox_crop sg
                   (reproject_roi_src sg
                      (gbt_getitem dg (resolve_chunks src chunks axis) idx)))
                (gbt_getitem dg (resolve_chunks src chunks axis) idx)
                rs sn (match dn with Some d => Some d | None => sn end) axis).
Proof.
  intros Hrun Hii1 Hidx.
  apply dask_reproject_inv in Hrun
    as (_ & _ & w1 & dsk1 & _ & Hloop & Hlayer & _).
  pose proof (first_loop_deps _ _ _ _ _ _ _ _ _ _ _ _ _ _ _ _ _ Hloop)
    as [Hdeps _].
  destruct (first_loop_tile _ _ _ _ _ _ _ _ _ _ _ _ _ _ _ _ _ _ _
              Hloop Hii1 Hidx) as [sname Hk].
  pose proof Hk as Hk'.
  eapply first_loop_sources in Hk' as [Hk' | Hk']; [| |exact Hloop].
  { by rewrite lookup_empty in Hk'. }
  destruct Hk' as (a & ii1' & idx' & Ha & _ & _ & _ & Ht).
  injection Ht as -> _ _ _.
  exists a. split; [rewrite Hdeps; by right|].
  rewrite Hlayer. erewrite second_loop_kept; [|exact Hk].
  unfold tile_task, resolve_nodata, yx. by destruct dn.
Qed.


End MoreClaims.

(** * Further properties of [_reproject_block_impl] *)

Module NpMore.
Import Np.

Lemma length_setitem {T} (a : ndarray T) prefix cells :
  length (nd_data (setitem a prefix cells)) = length (nd_data a).
Proof.
  unfold setitem; simpl.
  rewrite !length_app, NpFacts.length_overwrite.
  rewrite !length_take, !length_drop. lia.
Qed.

(** Consecutive strips of [m] cells make up the whole. *)
Lemma concat_strips {T} (m N : nat) (data : list T) :
  length data = (N * m)%nat →
  concat ((λ j, take m (drop (j * m) data)) <$> seq 0 N) = data.
Proof.
  revert data. induction N as [|N IH]; intros data Hlen.
  - simpl in *. by destruct data.
  - cbn [seq fmap list_fmap concat]. rewrite drop_0.
    rewrite <- fmap_S_seq, <- list_fmap_compose.
    transitivity (take m data ++ drop m data); [|apply take_drop].
    f_equal.
    etransitivity; [|apply (IH (drop m data)); rewrite length_drop; lia].
    f_equal. apply list_fmap_ext. intros _ j _. simpl.
    rewrite drop_drop. do 2 f_equal; lia.
Qed.

Lemma slice_to_is_take {A} (l : list A) b :
  ∃ n, Py.slice l None (Some b) = take n l.
Proof.
  unfold Py.slice; simpl. rewrite drop_0, Z.sub_0_r. by eexists.
Qed.

(** The empty index is the whole array. *)
Lemma getitem_nil {T} (a : ndarray T) :
  length (nd_data a) = size (nd_shape a) → getitem a [] = a.
Proof.
  intros Hlen. unfold getitem, offset. cbn [length drop take ravel].
  rewrite Nat.mul_0_l, drop_0, <- Hlen, firstn_all. by destruct a.
Qed.

Lemma setitem_nil {T} (a : ndarray T) cells :
  length (nd_data a) = size (nd_shape a) →
  setitem a [] cells = NdArray (nd_shape a) (overwrite (nd_data a) cells).
Proof.
  intros Hlen. unfold setitem, offset. cbn [length drop take ravel].
  rewrite Nat.mul_0_l, drop_0. cbn [take app Nat.add].
  rewrite <- Hlen, firstn_all, drop_all. by rewrite app_nil_r.
Qed.

End NpMore.

Section MoreBlock.
Context `{Collaborators}.

Lemma reproject_slice_keeps_buffer (src : ndarray Pixel) sg dg rs sn dn st p :
  nd_shape (reproject_slice src sg dg rs sn dn st p).1 = nd_shape st.1
  ∧ length (nd_data (reproject_slice src sg dg rs sn dn st p).1)
    = length (nd_data st.1).
Proof.
  destruct st as [dst calls]. unfold reproject_slice. simpl.
  split; [done|]. apply (NpMore.length_setitem dst).
Qed.

Lemma block_loop_keeps_buffer (src : ndarray Pixel) sg dg rs sn dn L st :
  nd_shape (foldl (reproject_slice src sg dg rs sn dn) st L).1 = nd_shape st.1
  ∧ length (nd_data (foldl (reproject_slice src sg dg rs sn dn) st L).1)
    = length (nd_data st.1).
Proof.
  revert st. induction L as [|p L IH]; intros st; [done|].
  cbn [foldl]. destruct (IH (reproject_slice src sg dg rs sn dn st p))
    as [-> ->].
  apply reproject_slice_keeps_buffer.
Qed.

(** X6.  Whatever the primitive writes and in either branch, the block
    returned has the destination shape (the source's with row/col
    replaced by the pixel shape of the destination grid) and exactly
    as many cells as that shape. *)
Theorem block_has_destination_shape (src : ndarray Pixel) sg dg rs sn dn axis :
  let dst_shape :=
    Py.slice (nd_shape src) None (Some axis) ++ yx (gbox_shape dg)
    ++ Py.slice (nd_shape src) (Some (axis + 2)) None in
  nd_shape (_reproject_block_impl src sg dg rs sn dn axis).1 = dst_shape
  ∧ length (nd_data (_reproject_block_impl src sg dg rs sn dn axis).1)
    = Np.size dst_shape.
Proof.
  intros dst_shape. unfold _reproject_block_impl. fold dst_shape.
  case_decide.
  - simpl. split; [done|].
    by rewrite NpFacts.length_overwrite, length_replicate.
  - destruct (block_loop_keeps_buffer src sg dg rs sn dn
                (Py.ndindex (Py.slice (nd_shape src) None (Some axis)))
                (Np.empty np_empty_cell dst_shape, [])) as [-> ->].
    simpl. split; [done|]. apply length_replicate.
Qed.

(** The loop, run on a buffer that nothing has written. *)
Lemma block_loop_calls (src : ndarray Pixel) sg dg rs sn dn leading rest :
  Forall (λ d, 0 ≤ d) leading → Forall (λ d, 0 ≤ d) rest →
  (foldl (reproject_slice src sg dg rs sn dn)
         (Np.empty np_empty_cell (leading ++ rest), [])
         (Py.ndindex leading)).2
  = (λ p, (Np.getitem src p, Np.empty np_empty_cell rest))
    <$> Py.ndindex leading.
Proof.
  intros Hlead Hrest.
  pose proof (NpFacts.ravel_ndindex_nat leading Hlead) as Hpos.
  assert (length (Py.ndindex leading) = Np.size leading) as Hcount.
  { apply (f_equal length) in Hpos.
    by rewrite length_fmap, length_seq in Hpos. }
  rewrite <- Hcount in Hpos.
  pose proof (block_loop src sg dg rs sn dn leading rest
                (Py.ndindex leading) 0 [] [] 0 eq_refl Hpos) as Hloop.
  cbv zeta in Hloop.
  unfold Np.empty at 1.
  rewrite NpFacts.size_app, <- Hcount by done.
  replace (length (Py.ndindex leading) * Np.size rest)%nat
    with ((length (Py.ndindex leading) + 0) * Np.size rest)%nat by lia.
  change (replicate ((length (Py.ndindex leading) + 0) * Np.size rest)
                    np_empty_cell)
    with ([] ++ replicate ((length (Py.ndindex leading) + 0) * Np.size rest)
                          np_empty_cell).
  rewrite Hloop; [done|].
  apply Forall_forall. intros p Hp. by apply PyFacts.ndindex_length.
Qed.

(** X7.  The source arrays handed to the primitive, call after call,
    are the cells of the source block in order: every cell is passed
    once, none twice and none is left out. *)
Theorem calls_partition_the_source (src : ndarray Pixel) sg dg rs sn dn axis :
  Forall (λ d, 0 ≤ d) (nd_shape src) →
  0 ≤ (gbox_shape dg).1 → 0 ≤ (gbox_shape dg).2 →
  length (nd_data src) = Np.size (nd_shape src) →
  concat ((λ call, nd_data call.1)
          <$> (_reproject_block_impl src sg dg rs sn dn axis).2)
  = nd_data src.
Proof.
  intros Hshape Hh Hw Hdata. unfold _reproject_block_impl.
  case_decide; [simpl; apply app_nil_r|].
  set (leading := Py.slice (nd_shape src) None (Some axis)).
  set (rest := yx (gbox_shape dg)
               ++ Py.slice (nd_shape src) (Some (axis + 2)) None).
  assert (Forall (λ d, 0 ≤ d) leading) as Hlead by by apply Forall_slice.
  assert (Forall (λ d, 0 ≤ d) rest) as Hrest.
  { apply Forall_app. split; [|by apply Forall_slice].
    unfold yx. by repeat constructor. }
  rewrite block_loop_calls by done.
  rewrite <- list_fmap_compose.
  destruct (NpMore.slice_to_is_take (nd_shape src) axis) as [n Hn].
  fold leading in Hn.
  set (m := Np.size (drop (length leading) (nd_shape src))).
  assert (take (length leading) (nd_shape src) = leading) as Htake.
  { rewrite Hn, length_take.
    destruct (decide (n ≤ length (nd_shape src))%nat).
    - by rewrite Nat.min_l by lia.
    - rewrite Nat.min_r by lia. by rewrite !take_ge by lia. }
  assert (leading ++ drop (length leading) (nd_shape src) = nd_shape src)
    as Hsplit by (rewrite <- Htake at 1; apply take_drop).
  transitivity
    (concat ((λ j, take m (drop (j * m) (nd_data src)))
             <$> ((λ p, Z.to_nat (Np.ravel leading p))
                  <$> Py.ndindex leading))).
  - f_equal. rewrite <- list_fmap_compose. apply list_fmap_ext.
    intros i p Hp. apply list_elem_of_lookup_2 in Hp.
    apply PyFacts.ndindex_length in Hp. simpl.
    unfold Np.offset. by rewrite Hp, Htake.
  - rewrite NpFacts.ravel_ndindex_nat by done.
    apply NpMore.concat_strips. rewrite Hdata, <- Hsplit.
    rewrite <- Hsplit in Hshape. apply Forall_app in Hshape as [_ ?].
    rewrite NpFacts.size_app by done. done.
Qed.

(** X8.  A block without leading axes ([axis = 0]) is handed to the
    primitive whole, in one call, whatever its number of axes: the
    axes after row/col of a (y, x, band) block are never iterated. *)
Theorem no_leading_axes_one_call (src : ndarray Pixel) sg dg rs sn dn :
  length (nd_data src) = Np.size (nd_shape src) →
  let dst :=
    Np.empty np_empty_cell
      (yx (gbox_shape dg) ++ Py.slice (nd_shape src) (Some 2) None) in
  _reproject_block_impl src sg dg rs sn dn 0
  = (rio_write src dst sg dg rs sn dn, [(src, dst)]).
Proof.
  intros Hdata dst. unfold _reproject_block_impl.
  rewrite PyFacts.slice_to by done.
  change (take (Z.to_nat 0) (nd_shape src)) with (@nil Z).
  change (0 + 2) with 2. cbn [app].
  fold dst. case_decide; [done|].
  cbn [Py.ndindex foldl]. unfold reproject_slice.
  assert (length (nd_data dst) = Np.size (nd_shape dst)) as Hdst
    by apply length_replicate.
  rewrite !NpMore.getitem_nil, NpMore.setitem_nil by done.
  f_equal. unfold rio_write. cbn [nd_shape nd_data]. f_equal.
  apply NpFacts.overwrite_same_length, NpFacts.length_overwrite.
Qed.

End MoreBlock.

(** * Further properties of [xr_reproject_array] *)

Module PyMore.

Lemma index_bounds `{EqDecision A} (t : list A) (x : A) i :
  Py.index t x = Some i → 0 ≤ i < Py.len t ∧ t !! Z.to_nat i = Some x.
Proof.
  revert i. induction t as [|y t IH]; intros i; simpl; [done|].
  case_decide as Hy.
  - intros [= <-]. subst y. unfold Py.len; simpl. split; [lia|done].
  - destruct (Py.index t x) as [j|]; [|done]. intros [= <-].
    destruct (IH j eq_refl) as [Hj Hlook]. unfold Py.len in *; simpl.
    split; [lia|]. rewrite Z2Nat.inj_succ by lia. done.
Qed.

End PyMore.

Section MoreXarray.
Context `{Collaborators}.
Implicit Types (src out : DataArray GeoBox DType Coord) (w : World).

(** The loop that completes the coordinates (lines 165-167). *)
Local Abbreviation carry_coord src :=
  (λ (dim : string) (coords : gmap string Coord),
     if decide (coords !! dim = None) then
       match xr_coords src !! dim with
       | Some c => ret (<[dim := c]> coords)
       | None => raise KeyError
       end
     else ret coords : M World (gmap string Coord)).

Lemma coords_loop src dims (c0 c : gmap string Coord) w w' :
  for_each dims (carry_coord src) c0 w = (inr c, w') →
  w' = w
  ∧ (∀ k, c !! k = match c0 !! k with
                   | Some v => Some v
                   | None => if decide (k ∈ dims) then xr_coords src !! k
                             else None
                   end)
  ∧ (∀ dim, dim ∈ dims → is_Some (c !! dim)).
Proof.
  revert c0 w. induction dims as [|dim dims IH]; intros c0 w Hrun;
    cbn [for_each] in Hrun.
  - injection Hrun as <- <-. split_and!; [done| |].
    + intros k. destruct (c0 !! k); [done|].
      rewrite decide_False; [done|]. apply not_elem_of_nil.
    + intros dim Hdim. by apply elem_of_nil in Hdim.
  - apply bind_inr in Hrun as (c1 & w1 & Hstep & Hrun).
    apply IH in Hrun as (-> & Hlook & Hall).
    assert (w1 = w ∧ (∀ k, c1 !! k = match c0 !! k with
                                     | Some v => Some v
                                     | None => if decide (k = dim)
                                               then xr_coords src !! k
                                               else None
                                     end)
            ∧ is_Some (c1 !! dim)) as (-> & Hc1 & Hdim).
    { case_decide as Hnone.
      - destruct (xr_coords src !! dim) as [v|] eqn:Hsrc; [|done].
        injection Hstep as <- <-. split_and!; [done| |].
        + intros k. destruct (decide (k = dim)) as [-> | Hne].
          * by rewrite lookup_insert_eq, Hnone.
          * rewrite lookup_insert_ne by done. by destruct (c0 !! k).
        + rewrite lookup_insert_eq. by eexists.
      - injection Hstep as <- <-. split_and!; [done| |].
        + intros k. destruct (c0 !! k) eqn:Hk; [done|].
          rewrite decide_False; [done|]. by intros ->.
        + by destruct (c0 !! dim); [eexists|]. }
    split_and!; [done| |].
    + intros k. rewrite Hlook, Hc1. destruct (c0 !! k); [done|].
      destruct (decide (k = dim)) as [-> | Hne].
      * rewrite (decide_True (P := dim ∈ dim :: dims)) by (by left).
        destruct (xr_coords src !! dim); [done|]. simpl.
        by destruct (decide (dim ∈ dims)).
      * destruct (decide (k ∈ dims)) as [Hin | Hnin].
        -- by rewrite (decide_True (P := k ∈ dim :: dims)) by (by right).
        -- rewrite (decide_False (P := k ∈ dim :: dims)); [done|].
           intros [?|?]%elem_of_cons; done.
    + intros d [-> | Hd]%elem_of_cons; [|by apply Hall].
      destruct Hdim as [v Hdim]. rewrite Hlook, Hdim. by eexists.
Qed.

(** What a run that returns went through. *)
Lemma xr_reproject_array_inv src geobox rs chunks dn w out w' :
  xr_reproject_array src geobox rs chunks dn w = (inr out, w') →
  ∃ sn a sg yxd axis coords data,
    xr_attrs src !! "nodata"%string = Some sn
    ∧ xr_data src = DaskData a
    ∧ xr_geobox (xr_dims src) (xr_coords src) = Some sg
    ∧ spatial_dims (xr_dims src) = Some yxd
    ∧ Py.index (xr_dims src) yxd.1 = Some axis
    ∧ for_each (xr_dims src) (carry_coord src) (gbox_xr_coords geobox) w
      = (inr coords, w)
    ∧ dask_reproject a sg geobox rs chunks sn
        (match dn with Some d => Some d | None => sn end) axis
        "reproject" w = (inr data, w')
    ∧ xr_data out = DaskData data
    ∧ xr_name out = xr_name src
    ∧ xr_coords out = coords
    ∧ xr_dims out
      = Py.slice (xr_dims src) None (Some axis)
        ++ [(gbox_dims geobox).1; (gbox_dims geobox).2]
        ++ Py.slice (xr_dims src) (Some (axis + 2)) None.
Proof.
  unfold xr_reproject_array. intros Hrun.
  apply bind_inr in Hrun as (dn' & w1 & Hdn & Hrun).
  apply bind_inr in Hrun as (a & w2 & Ha & Hrun).
  apply bind_inr in Hrun as (sg & w3 & Hsg & Hrun).
  apply bind_inr in Hrun as (yxd & w4 & Hyx & Hrun).
  apply bind_inr in Hrun as (axis & w5 & Hax & Hrun).
  apply bind_inr in Hrun as (coords & w6 & Hco & Hrun).
  apply bind_inr in Hrun as (sn & w7 & Hsn & Hrun).
  apply bind_inr in Hrun as (data & w8 & Hdata & Hrun).
  injection Hrun as <- <-.
  apply xr_nodata_inr in Hsn as [Hattr ->].
  pose proof (coords_loop _ _ _ _ _ _ Hco) as (-> & _ & _).
  destruct (xr_data src) as [a'|] eqn:Hd; [|done]. injection Ha as <- <-.
  destruct (xr_geobox _ _) as [g|] eqn:Hg; [|done]. injection Hsg as <- <-.
  destruct (spatial_dims _) as [d|] eqn:Hsp; [|done]. injection Hyx as <- <-.
  destruct (Py.index _ _) as [i|] eqn:Hi; [|done]. injection Hax as <- <-.
  assert (dn' = match dn with Some d => Some d | None => sn end ∧ w1 = w)
    as [-> ->].
  { destruct dn as [d0|].
    - by injection Hdn as <- <-.
    - apply xr_nodata_inr in Hdn as [Hattr' ->]. split; [congruence|done]. }
  exists sn, a', g, d, i, coords, data. by split_and!.
Qed.


(** X10.  When [xr_reproject_array] returns for a well-formed dask
    array with one dimension name per axis, the first spatial dimension
    of the source is its last but one; the result keeps the name of the
    source, its dimensions are the leading dimensions of the source
    followed by the two of the destination grid, and its data has the
    leading extents of the source followed by the pixel shape of the
    destination grid. *)
Theorem dims_of_the_result src geobox rs chunks dn w out w' a :
  xr_reproject_array src geobox rs chunks dn w = (inr out, w') →
  xr_data src = DaskData a →
  well_formed a →
  length (xr_dims src) = length (da_shape a) →
  ∃ yxd axis data,
    spatial_dims (xr_dims src) = Some yxd
    ∧ Py.index (xr_dims src) yxd.1 = Some axis
    ∧ axis = Py.len (xr_dims src) - 2
    ∧ xr_name out = xr_name src
    ∧ xr_dims out
      = take (Z.to_nat axis) (xr_dims src)
        ++ [(gbox_dims geobox).1; (gbox_dims geobox).2]
    ∧ xr_data out = DaskData data
    ∧ da_shape data
      = take (Z.to_nat axis) (da_shape a)
        ++ [(gbox_shape geobox).1; (gbox_shape geobox).2].
Proof.
  intros Hrun Ha Hwf Hdims.
  apply xr_reproject_array_inv in Hrun
    as (sn & a' & sg & yxd & axis & coords & data
        & _ & Ha' & _ & Hyx & Hax & _ & Hdask & Hdata & Hname & _ & Hd).
  rewrite Ha in Ha'. injection Ha' as <-.
  apply dask_reproject_inv in Hdask
    as (Hs & Hd2 & _ & _ & _ & _ & _ & _ & _ & Hshape).
  destruct (preconditions a sg geobox chunks axis Hwf Hs Hd2)
    as (Hnn & Hlen & _ & _ & _ & Hdst & _).
  exists yxd, axis, data. split_and!; [done..| |done| |done|].
  - unfold Py.len. lia.
  - rewrite Hd, PyFacts.slice_to, PyFacts.slice_from by lia.
    rewrite (drop_ge (xr_dims src)) by lia. by rewrite app_nil_r.
  - by rewrite Hshape, Hdst.
Qed.

(** X11.  A source without a [nodata] attribute makes
    [xr_reproject_array] raise, also when [dst_nodata] is given: the
    attribute is read again for the source nodata.  With [dst_nodata]
    left to [None] the error is the [AttributeError] of the first
    read, before anything else is looked at. *)
Theorem missing_nodata_attribute_raises src geobox rs chunks dn w :
  xr_attrs src !! "nodata"%string = None →
  match dn with
  | None => xr_reproject_array src geobox rs chunks dn w
            = (inl AttributeError, w)
  | Some _ => ∃ e w', xr_reproject_array src geobox rs chunks dn w
                      = (inl e, w')
  end.
Proof.
  intros Hattr. destruct dn as [d|].
  - destruct (xr_reproject_array src geobox rs chunks (Some d) w)
      as [[e | out] w'] eqn:Hrun; [by eexists _, _|].
    apply xr_reproject_array_inv in Hrun as (sn & ? & ? & ? & ? & ? & ? & Hsn & _).
    congruence.
  - unfold xr_reproject_array, bind, xr_nodata. by rewrite Hattr.
Qed.

(** X12.  A [DataArray] that is not backed by a dask array is refused
    with an [AssertionError] as soon as the destination nodata is
    settled, before its grid or its dimensions are looked at and
    without a name being drawn. *)
Theorem numpy_backed_is_refused src geobox rs chunks dn w :
  xr_data src = NumpyData →
  is_Some dn ∨ is_Some (xr_attrs src !! "nodata"%string) →
  xr_reproject_array src geobox rs chunks dn w = (inl AssertionError, w).
Proof.
  intros Hdata Hnd. unfold xr_reproject_array, bind, xr_nodata.
  rewrite Hdata. destruct dn as [d|]; [done|].
  destruct Hnd as [[? [=]] | [v ->]]. done.
Qed.

End MoreXarray.



Lemma resample_tasks_read_dependencies_witness :
  ∃ dep ii1 idx,
    dep ∈ da_dependencies Runs.onto_corner
    ∧ ii1 ∈ Py.ndindex (dims1_of (H := Lattice.pixels) Lattice.src4
                          Lattice.corner None 0)
    ∧ idx ∈ tiles_with_data (H := Lattice.pixels) Lattice.src4
              Lattice.grid4 Lattice.corner None 0
    ∧ ("reproject-0"%string, [0; 0])
      = (da_name Runs.onto_corner, ii1 ++ [idx.1; idx.2])
    ∧ MoreRuns.corner_task
      = Reproject (da_name dep, ii1 ++ [0; 0])
          (Lattice.window Lattice.grid4
             (Lattice.roi Lattice.grid4
                (Lattice.tile Lattice.corner
                   (resolve_chunks (H := Lattice.pixels) Lattice.src4 None 0)
                   idx)))
          (Lattice.tile Lattice.corner
             (resolve_chunks (H := Lattice.pixels) Lattice.src4 None 0) idx)
          "nearest" None None 0.
Proof.
  apply (resample_tasks_read_dependencies (H := Lattice.pixels)
           Lattice.src4 Lattice.grid4 Lattice.corner "nearest"
           None None None 0 "reproject" 0%nat Runs.onto_corner 2%nat
           ("reproject-0"%string, [0; 0]) MoreRuns.corner_task).
  - vm_compute. reflexivity.
  - vm_compute. reflexivity.
  - exact I.
Defined.

Lemma every_tile_has_its_task_witness :
  ∃ dep,
    dep ∈ da_dependencies Runs.onto_corner
    ∧ da_layer Runs.onto_corner !! (da_name Runs.onto_corner, [] ++ [0; 0])
      = Some (Reproject (da_name dep, [] ++ [0; 0])
                (Lattice.window Lattice.grid4
                   (Lattice.roi Lattice.grid4
                      (Lattice.tile Lattice.corner
                         (resolve_chunks (H := Lattice.pixels)
                            Lattice.src4 None 0) (0, 0))))
                (Lattice.tile Lattice.corner
                   (resolve_chunks (H := Lattice.pixels) Lattice.src4 None 0)
                   (0, 0))
                "nearest" None None 0).
Proof.
  apply (every_tile_has_its_task (H := Lattice.pixels)
           Lattice.src4 Lattice.grid4 Lattice.corner "nearest"
           None None None 0 "reproject" 0%nat Runs.onto_corner 2%nat
           [] (0, 0)).
  - vm_compute. reflexivity.
  - vm_compute. left.
  - vm_compute. left.
Defined.


Lemma calls_partition_the_source_witness :
  concat ((λ call, nd_data call.1)
          <$> (_reproject_block_impl (H := Lattice.pixels) Lattice.block2212
                 Lattice.row_box Lattice.row_box "nearest" None None 2).2)
  = nd_data Lattice.block2212.
Proof.
  apply (calls_partition_the_source (H := Lattice.pixels)
           Lattice.block2212 Lattice.row_box Lattice.row_box
           "nearest" None None 2).
  - repeat constructor; done.
  - done.
  - done.
  - reflexivity.
Defined.

Lemma no_leading_axes_one_call_witness :
  _reproject_block_impl (H := Lattice.pixels) MoreRuns.block_yxb
    Lattice.row_box Lattice.row_box "nearest" None None 0
  = (rio_write (H := Lattice.pixels) MoreRuns.block_yxb
       (Np.empty (-7) [1; 2; 2]) Lattice.row_box Lattice.row_box
       "nearest" None None,
     [(MoreRuns.block_yxb, Np.empty (-7) [1; 2; 2])]).
Proof.
  apply (no_leading_axes_one_call (H := Lattice.pixels) MoreRuns.block_yxb
           Lattice.row_box Lattice.row_box "nearest" None None).
  reflexivity.
Defined.


Lemma dims_of_the_result_witness :
  xr_dims Runs.xr_onto_corner = ["time"; "y"; "x"]%string
  ∧ xr_name Runs.xr_onto_corner = "nbar"%string.
Proof.
  destruct (dims_of_the_result (H := Lattice.pixels) Lattice.xr344
              Lattice.corner "nearest" None None 0%nat
              Runs.xr_onto_corner 2%nat Lattice.src344
              ltac:(vm_compute; reflexivity) eq_refl eq_refl eq_refl)
    as (yxd & axis & data & _ & _ & Haxis & Hname & Hdims & _).
  rewrite Haxis in Hdims. split; [exact Hdims | exact Hname].
Defined.

Lemma missing_nodata_attribute_raises_witness :
  ∃ e w',
    xr_reproject_array (H := Lattice.pixels) MoreRuns.xr344_plain
      Lattice.corner "nearest" None (Some (NdInt 0)) 0%nat = (inl e, w').
Proof.
  apply (missing_nodata_attribute_raises (H := Lattice.pixels)
           MoreRuns.xr344_plain Lattice.corner "nearest" None
           (Some (NdInt 0)) 0%nat).
  reflexivity.
Defined.

Lemma numpy_backed_is_refused_witness :
  xr_reproject_array (H := Lattice.pixels) MoreRuns.xr344_in_memory
    Lattice.corner "nearest" None None 0%nat = (inl AssertionError, 0%nat).
Proof.
  apply (numpy_backed_is_refused (H := Lattice.pixels)
           MoreRuns.xr344_in_memory Lattice.corner "nearest" None None 0%nat).
  - reflexivity.
  - right. by eexists.
Defined.

(** * [sqs_to_dc.get_uri] *)

Module SqsFacts.
Import Sqs.

Lemma loop_skip links r uri :
  Forall (λ x, is_link x ∧ ¬ has_rel r x) links →
  get_uri_loop links r uri = inr uri.
Proof.
  induction 1 as [|link links [[d ->] Hrel] _ IH]; simpl; [done|].
  destruct (d !! "rel"%string) as [rel|] eqn:Hd; simpl; [|done].
  destruct (truthy rel && eq_str rel r) eqn:Hm; [|done].
  apply andb_true_iff in Hm as [_ Heq].
  destruct rel; try done. simpl in Heq. apply String.eqb_eq in Heq as ->.
  destruct Hrel. by exists d.
Qed.

Lemma loop_app pre post r uri :
  Forall is_link pre →
  ∃ uri', get_uri_loop pre r uri = inr uri'
          ∧ get_uri_loop (pre ++ post) r uri = get_uri_loop post r uri'.
Proof.
  intros Hpre. revert uri.
  induction Hpre as [|link pre [d ->] _ IH]; intros uri; simpl.
  - by exists uri.
  - destruct (truthy _ && eq_str _ r); apply IH.
Qed.

Lemma loop_empty_rel links uri :
  Forall is_link links → get_uri_loop links "" uri = inr uri.
Proof.
  induction 1 as [|link links [l ->] _ IH]; simpl; [done|].
  destruct (l !! "rel"%string) as [rel|]; simpl; [|done].
  assert (truthy rel && eq_str rel "" = false) as ->; [|done].
  destruct rel as [| | | |s| |]; simpl; rewrite ?andb_false_r; try done.
  by destruct s.
Qed.

(** X13.  [get_uri] returns the [href] of the last link whose [rel] is
    the value asked for: a link further down the list replaces the
    [href] that an earlier link gave, and when that last link has no
    [href] the result is [None], whatever the earlier ones had. *)
Theorem last_matching_link_wins
    (d l : gmap string Json) (pre post : list Json) (r : string) :
  d !! "links"%string = Some (JList (pre ++ JDict l :: post)) →
  Forall is_link pre →
  Forall (λ x, is_link x ∧ ¬ has_rel r x) post →
  l !! "rel"%string = Some (JStr r) →
  r ≠ ""%string →
  get_uri (JDict d) r = inr (default JNull (l !! "href"%string)).
Proof.
  intros Hlinks Hpre Hpost Hrel Hr. unfold get_uri. simpl.
  rewrite Hlinks. simpl.
  destruct (loop_app pre (JDict l :: post) r JNull Hpre) as (uri' & _ & ->).
  simpl. rewrite Hrel. simpl.
  assert (negb (String.eqb r "") && String.eqb r r = true) as ->.
  { apply andb_true_iff. split; [|apply String.eqb_refl].
    apply negb_true_iff. by apply String.eqb_neq. }
  by apply loop_skip.
Qed.

(** X14.  When no link has the [rel] asked for, also when there is no
    link at all, [get_uri] returns [None]. *)
Theorem no_matching_link_gives_none
    (d : gmap string Json) (links : list Json) (r : string) :
  d !! "links"%string = Some (JList links) →
  Forall (λ x, is_link x ∧ ¬ has_rel r x) links →
  get_uri (JDict d) r = inr JNull.
Proof.
  intros Hlinks Hno. unfold get_uri. simpl. rewrite Hlinks. simpl.
  by apply loop_skip.
Qed.

(** X15.  Asked for the empty [rel], [get_uri] finds nothing, even
    among links whose [rel] is the empty string: an empty [rel] counts
    as absent. *)
Theorem empty_rel_never_matches (d : gmap string Json) (links : list Json) :
  d !! "links"%string = Some (JList links) →
  Forall is_link links →
  get_uri (JDict d) "" = inr JNull.
Proof.
  intros Hlinks Hall. unfold get_uri. simpl. rewrite Hlinks. simpl.
  by apply loop_empty_rel.
Qed.

(** X16.  A document without [links], or with [links] set to [null],
    makes [get_uri] raise a [TypeError]: it does not return [None]. *)
Theorem missing_links_raise_type_error (d : gmap string Json) (r : string) :
  default JNull (d !! "links"%string) = JNull →
  get_uri (JDict d) r = inl TypeError.
Proof.
  intros Hnull. unfold get_uri. simpl. by rewrite Hnull.
Qed.

(** X17.  Something that is not a dict where a link is expected makes
    [get_uri] raise an [AttributeError], whatever the links before it
    matched and whatever [rel] is asked for. *)
Theorem non_dict_link_raises_attribute_error
    (d : gmap string Json) (pre post : list Json) (x : Json) (r : string) :
  d !! "links"%string = Some (JList (pre ++ x :: post)) →
  Forall is_link pre → ¬ is_link x →
  get_uri (JDict d) r = inl AttributeError.
Proof.
  intros Hlinks Hpre Hx. unfold get_uri. simpl.
  rewrite Hlinks. simpl.
  destruct (loop_app pre (x :: post) r JNull Hpre) as (uri' & _ & ->).
  simpl. destruct x; try done. destruct Hx. by eexists.
Qed.

End SqsFacts.

(** * [odc.dtools._rio] *)

Module RioFacts.
Import Rio.

Lemma lookup_sanitize opts keys k :
  _sanitize opts keys !! k
  = (λ v, if decide (k ∉ keys) then v else OptStr "xx..xx") <$> opts !! k.
Proof.
  unfold _sanitize. rewrite map_lookup_imap.
  by destruct (opts !! k).
Qed.

(** X18.  What [get_rio_env] shows by default has the options of the
    environment, name for name; each of the three AWS secrets that is
    set shows as ["xx..xx"], never as its value, and every other option
    shows its value. *)
Theorem secrets_are_masked (opts : gmap string OptValue) (k : string) :
  get_rio_env (Some opts) true !! k
  = if decide (k = "AWS_ACCESS_KEY_ID" ∨ k = "AWS_SECRET_ACCESS_KEY"
               ∨ k = "AWS_SESSION_TOKEN")%string
    then (λ _, OptStr "xx..xx") <$> opts !! k
    else opts !! k.
Proof.
  unfold get_rio_env. rewrite lookup_sanitize. unfold SECRET_KEYS.
  destruct (opts !! k) as [v|]; simpl; [|by case_decide].
  destruct (decide (k = "AWS_ACCESS_KEY_ID" ∨ k = "AWS_SECRET_ACCESS_KEY"
                    ∨ k = "AWS_SESSION_TOKEN")%string) as [Hk | Hk].
  - rewrite decide_False; [done|]. intros Hnot. apply Hnot.
    destruct Hk as [-> | [-> | ->]];
      [left | right; left | right; right; left].
  - rewrite decide_True; [done|]. intros Hin. apply Hk.
    rewrite !elem_of_cons in Hin.
    destruct Hin as [? | [? | [? | Hnil]]]; auto.
    by apply elem_of_nil in Hnil.
Qed.

(** X19.  Sanitizing twice is sanitizing once, so options that were
    already sanitized can be passed through again. *)
Theorem sanitize_idempotent (opts : gmap string OptValue) (keys : list string) :
  _sanitize (_sanitize opts keys) keys = _sanitize opts keys.
Proof.
  apply map_eq. intros k. rewrite !lookup_sanitize.
  destruct (opts !! k); [|done]. simpl. by case_decide.
Qed.

End RioFacts.

(** * [odc.algo._masking] *)

Module MaskingFacts.
Import Masking.

Section Enum.
Context {K R : Type} (int : K → Error + Z).
Local Abbreviation Def := (Flags R (list (K * string))).

Lemma invert_lookup items out values n z :
  invert int items out = inr values →
  values !! n = Some z →
  out !! n = Some z ∨ ∃ v, (v, n) ∈ items ∧ int v = inr z.
Proof.
  revert out. induction items as [|[v n'] items IH]; intros out; simpl.
  - intros [= ->]. by left.
  - destruct (int v) as [e|z'] eqn:Hv; [done|]. intros Hinv Hz.
    destruct (IH _ Hinv Hz) as [Hout | (v' & Hin & Hv')].
    + destruct (decide (n' = n)) as [-> | Hne].
      * rewrite lookup_insert_eq in Hout. injection Hout as ->.
        right. exists v. split; [left | done].
      * rewrite lookup_insert_ne in Hout by done. by left.
    + right. exists v'. split; [by right | done].
Qed.

Lemma invert_dom items out values :
  invert int items out = inr values →
  dom values = dom out ∪ list_to_set items.*2.
Proof.
  revert out. induction items as [|[v n] items IH]; intros out; simpl.
  - intros [= ->]. set_solver.
  - destruct (int v) as [e|z]; [done|]. intros Hinv.
    rewrite (IH _ Hinv), dom_insert_L. set_solver.
Qed.

Lemma invert_total items out :
  Forall (λ p, ∃ z, int p.1 = inr z) items →
  ∃ values, invert int items out = inr values.
Proof.
  intros Hall. revert out.
  induction Hall as [|[v n] items [z Hz] _ IH]; intros out; simpl.
  - by exists out.
  - simpl in Hz. rewrite Hz. apply IH.
Qed.

Lemma invert_fails items out v n e :
  (v, n) ∈ items → int v = inl e →
  ∃ e', invert int items out = inl (Builtin e').
Proof.
  intros Hin Hv. revert out.
  induction items as [|[v' n'] items IH]; intros out; simpl.
  - by apply elem_of_nil in Hin.
  - destruct (int v') as [e'|z] eqn:Hv'; [by exists e'|].
    apply elem_of_cons in Hin as [[= <- <-] | Hin]; [congruence|].
    by apply IH.
Qed.

Lemma invert_app items items' out :
  invert int (items ++ items') out
  = match invert int items out with
    | inl e => inl e
    | inr values => invert int items' values
    end.
Proof.
  revert out. induction items as [|[v n] items IH]; intros out; simpl; [done|].
  by destruct (int v).
Qed.

Lemma invert_keeps items out values n :
  invert int items out = inr values → n ∉ items.*2 →
  values !! n = out !! n.
Proof.
  revert out. induction items as [|[v n'] items IH]; intros out; simpl.
  - by intros [= ->].
  - destruct (int v) as [e|z]; [done|]. intros Hinv Hn.
    rewrite not_elem_of_cons in Hn. destruct Hn as [Hne Hn].
    rewrite (IH _ Hinv Hn). by rewrite lookup_insert_ne.
Qed.

Lemma invert_last before after out v n z values :
  invert int (before ++ (v, n) :: after) out = inr values →
  n ∉ after.*2 → int v = inr z →
  values !! n = Some z.
Proof.
  rewrite invert_app. destruct (invert int before out) as [e|mid]; [done|].
  simpl. intros Hinv Hafter Hv. rewrite Hv in Hinv.
  rewrite (invert_keeps _ _ _ _ Hinv Hafter). by rewrite lookup_insert_eq.
Qed.

Lemma lookup_all_inr values names vs :
  lookup_all values names = inr vs ↔
  Forall2 (λ n z, values !! n = Some z) names vs.
Proof.
  revert vs. induction names as [|n names IH]; intros vs; simpl.
  - split; [intros [= <-]; constructor | by inversion 1].
  - destruct (values !! n) as [v|] eqn:Hn.
    + destruct (lookup_all values names) as [e|vs'] eqn:Hall.
      * split; [done|]. inversion 1 as [|? z ? vs'' _ Hrest]; subst.
        by apply IH in Hrest.
      * split.
        -- intros [= <-]. constructor; [done | by apply IH].
        -- inversion 1 as [|? z ? vs'' Hz Hrest]; subst.
           apply IH in Hrest. congruence.
    + split; [done|]. inversion 1; congruence.
Qed.

Lemma lookup_all_total values names :
  list_to_set names ∖ dom values = (∅ : gset string) →
  ∃ vs, lookup_all values names = inr vs.
Proof.
  intros Hsub. induction names as [|n names IH]; simpl; [by eexists|].
  assert (n ∈ dom values) as [v Hv]%elem_of_dom by set_solver.
  rewrite Hv. destruct IH as [vs ->]; [set_solver|]. by eexists.
Qed.

(** What one turn of the loop does with a definition that can be
    inverted. *)
Lemma invertible_inverts (ff : Def) :
  invertible int ff →
  ∃ items values,
    fl_values ff = Some items
    ∧ invert int items ∅ = inr values
    ∧ _flags_invert int ff = inr (mkFlags (fl_rest ff) (Some values))
    ∧ dom values = list_to_set (names_of ff).
Proof.
  intros (items & Hitems & Hall).
  destruct (invert_total items ∅ Hall) as [values Hinv].
  exists items, values. repeat split; [done | done | |].
  - unfold _flags_invert. by rewrite Hitems, Hinv.
  - unfold names_of. rewrite Hitems, (invert_dom _ _ _ Hinv). set_solver.
Qed.

Lemma values_give (ff : Def) items values names vs :
  fl_values ff = Some items →
  invert int items ∅ = inr values →
  Forall2 (λ n z, values !! n = Some z) names vs →
  Forall2 (gives int ff) names vs.
Proof.
  intros Hitems Hinv Hall. eapply Forall2_impl; [exact Hall|].
  intros n z Hz. simpl in Hz.
  destruct (invert_lookup _ _ _ _ _ Hinv Hz) as [Hemp | (v & Hin & Hv)].
  - by rewrite lookup_empty in Hemp.
  - by exists items, v.
Qed.

Lemma search_inl names (defs : list Def) unmatched vs :
  search int names defs unmatched = inr (inl vs) →
  ∃ ff, ff ∈ defs ∧ Forall2 (gives int ff) names vs.
Proof.
  revert unmatched. induction defs as [|ff defs IH]; intros u; simpl; [done|].
  unfold _flags_invert.
  destruct (fl_values ff) as [items|] eqn:Hitems; [|done].
  destruct (invert int items ∅) as [e|values] eqn:Hinv; [done|]. simpl.
  case_decide as Hsize.
  - destruct (lookup_all values names) as [e|vs'] eqn:Hall; [done|].
    intros [= <-]. exists ff. split; [left|].
    apply lookup_all_inr in Hall. by eapply values_give.
  - intros (ff' & Hin & Hgives)%IH. exists ff'. split; [by right | done].
Qed.

Lemma missing_iff (names names' : list string) :
  size (list_to_set names ∖ list_to_set names' : gset string) = 0%nat
  ↔ names ⊆ names'.
Proof.
  rewrite size_empty_iff. split.
  - intros Hemp n Hn. apply dec_stable. intros Hn'.
    assert (n ∈ (∅ : gset string)) as Hin; [|set_solver].
    rewrite <- Hemp. set_solver.
  - intros Hsub. apply set_equiv. intros n. set_solver.
Qed.

(** The loop passes over definitions that are well formed and lack a
    name, and stops at the first that has all of them. *)
Lemma search_skip names (pre defs : list Def) unmatched :
  Forall (λ ff, invertible int ff ∧ ¬ names ⊆ names_of ff) pre →
  search int names (pre ++ defs) unmatched
  = search int names defs
      (match last pre with
       | Some ff => list_to_set names ∖ list_to_set (names_of ff)
       | None => unmatched
       end).
Proof.
  intros Hpre. revert unmatched.
  induction Hpre as [|ff pre [Hinv Hmiss] _ IH]; intros u; simpl; [done|].
  destruct (invertible_inverts ff Hinv) as (items & values & _ & _ & -> & Hdom).
  simpl. rewrite Hdom, decide_False by by rewrite missing_iff.
  rewrite IH. destruct pre as [|ff' pre]; [done|].
  rewrite last_cons_cons.
  destruct (last (ff' :: pre)) eqn:Hlast; [done|].
  by apply last_None in Hlast.
Qed.

Lemma covered (names names' : list string) :
  names ⊆ names' →
  list_to_set names ∖ list_to_set names' = (∅ : gset string).
Proof.
  intros Hsub. apply leibniz_equiv. apply size_empty_iff.
  by apply missing_iff.
Qed.

Lemma getitem_elem_of {V} (d : list (string * V)) k v :
  getitem d k = inr v → (k, v) ∈ d.
Proof.
  induction d as [|[k' v'] d IH]; simpl; [done|].
  case_decide as Hk; [intros [= ->]; subst; left | right; auto].
Qed.

(** X20.  When [_get_enum_values] returns, it returns one code per name
    asked for, in the order of the names, and all the codes come from
    one definition: each is the integer of a key that this definition
    maps to the name. With a [flag] given, the definition is the one
    of that flag. *)
Theorem enum_values_from_one_definition
    (names : list string) (flags_definition : list (string * Def))
    (flag : string) (vs : list Z) :
  _get_enum_values int names flags_definition flag = inr vs →
  ∃ name ff, (name, ff) ∈ flags_definition
             ∧ (flag ≠ ""%string → name = flag)
             ∧ Forall2 (gives int ff) names vs.
Proof.
  unfold _get_enum_values. case_decide as Hflag.
  - destruct (getitem flags_definition flag) as [e|ff] eqn:Hget; [done|].
    change ([(flag, ff)].*2) with [ff].
    destruct (search int names [ff] ∅) as [e|[vs'|u]] eqn:Hs; [done| |].
    + intros [= ->]. apply search_inl in Hs as (ff' & Hin & Hgives).
      apply list_elem_of_singleton in Hin as ->.
      exists flag, ff. split; [by apply getitem_elem_of | done].
    + by case_decide.
  - destruct (search int names (flags_definition.*2) ∅)
      as [e|[vs'|u]] eqn:Hs; [done| |].
    + intros [= ->]. apply search_inl in Hs as (ff & Hin & Hgives).
      apply list_elem_of_fmap in Hin as ([name ff'] & -> & Hin).
      exists name, ff'. by repeat split.
    + by case_decide.
Qed.

(** X21.  With no [flag] given, the definition is guessed: the first
    one that has all the names answers, the definitions before it
    being well formed, and the call returns. The definitions after it
    are not looked at, so they may be malformed. *)
Theorem first_covering_definition_answers
    (names : list string) (pre post : list (string * Def))
    (name : string) (ff : Def) :
  Forall (λ d, invertible int d.2 ∧ ¬ names ⊆ names_of d.2) pre →
  invertible int ff → names ⊆ names_of ff →
  ∃ vs, _get_enum_values int names (pre ++ (name, ff) :: post) "" = inr vs
        ∧ Forall2 (gives int ff) names vs.
Proof.
  intros Hpre Hinv Hsub. unfold _get_enum_values.
  rewrite decide_False by (by intros []).
  rewrite fmap_app, fmap_cons. simpl.
  rewrite (search_skip names) by by apply Forall_fmap.
  destruct (invertible_inverts ff Hinv)
    as (items & values & Hitems & Hval & Hff & Hdom).
  simpl. rewrite Hff. simpl.
  rewrite Hdom, decide_True by by rewrite missing_iff.
  destruct (lookup_all_total values names) as [vs Hvs].
  { rewrite Hdom. by apply covered. }
  rewrite Hvs. exists vs. split; [done|].
  apply lookup_all_inr in Hvs. by eapply values_give.
Qed.

(** X22.  When every definition is well formed and each lacks one of
    the names, the call raises a [ValueError]. With more than one
    definition the message names no name; with one, it lists the names
    that the definition lacks; with none, it lists no name, and this
    also when no name was asked for. *)
Theorem no_definition_has_the_names
    (names : list string) (flags_definition : list (string * Def)) :
  Forall (λ d, invertible int d.2 ∧ ¬ names ⊆ names_of d.2)
         flags_definition →
  _get_enum_values int names flags_definition ""
  = inl (ValueErrorOf
           match flags_definition with
           | [] => NotAllFound ∅
           | [(_, ff)] =>
               NotAllFound (list_to_set names ∖ list_to_set (names_of ff))
           | _ => CanNotFind
           end).
Proof.
  intros Hall. unfold _get_enum_values.
  rewrite decide_False by (by intros []).
  rewrite <- (app_nil_r (flags_definition.*2)).
  rewrite (search_skip names) by by apply Forall_fmap.
  simpl. by destruct flags_definition as [|[n1 f1] [|[n2 f2] rest]].
Qed.

(** X23.  With a [flag] given, only the definition of that flag is
    looked at. When it has all the names the call returns their codes;
    when it lacks one the call raises the [ValueError] that lists the
    names it lacks, also when another definition has them all. *)
Theorem named_flag_is_not_guessed
    (names : list string) (flags_definition : list (string * Def))
    (flag : string) (ff : Def) :
  flag ≠ ""%string →
  getitem flags_definition flag = inr ff →
  invertible int ff →
  if decide (names ⊆ names_of ff) then
    ∃ vs, _get_enum_values int names flags_definition flag = inr vs
          ∧ Forall2 (gives int ff) names vs
  else
    _get_enum_values int names flags_definition flag
    = inl (ValueErrorOf
             (NotAllFound (list_to_set names ∖ list_to_set (names_of ff)))).
Proof.
  intros Hflag Hget Hinv. unfold _get_enum_values.
  rewrite (decide_True (P := flag ≠ ""%string)) by done. rewrite Hget.
  change ([(flag, ff)].*2) with [ff].
  destruct (invertible_inverts ff Hinv)
    as (items & values & Hitems & Hval & Hff & Hdom).
  cbn [search]. rewrite Hff. cbn [fl_values]. rewrite Hdom.
  case_decide as Hsub.
  - rewrite decide_True by by rewrite missing_iff.
    destruct (lookup_all_total values names) as [vs Hvs].
    { rewrite Hdom. by apply covered. }
    rewrite Hvs. exists vs. split; [done|].
    apply lookup_all_inr in Hvs. by eapply values_give.
  - by rewrite decide_False by by rewrite missing_iff.
Qed.

(** X24.  A [flag] that [flags_definition] does not have makes the call
    raise a [KeyError], whatever the names and the definitions. *)
Theorem unknown_flag_raises_key_error
    (names : list string) (flags_definition : list (string * Def))
    (flag : string) :
  flag ≠ ""%string →
  flag ∉ flags_definition.*1 →
  _get_enum_values int names flags_definition flag = inl (Builtin KeyError).
Proof.
  intros Hflag Hnot. unfold _get_enum_values. rewrite decide_True by done.
  assert (getitem flags_definition flag = inl (Builtin KeyError)) as ->; [|done].
  induction flags_definition as [|[k v] d IH]; simpl; [done|].
  rewrite fmap_cons, not_elem_of_cons in Hnot. destruct Hnot as [Hk Hnot].
  rewrite decide_False by done. by apply IH.
Qed.

(** X25.  A definition that cannot be inverted makes the guess fail
    when the loop reaches it, with the builtin exception of the
    conversion, even when a definition after it has all the names. *)
Theorem malformed_definition_stops_the_guess
    (names : list string) (pre post : list (string * Def))
    (name : string) (ff : Def) (items : list (K * string))
    (v : K) (n : string) (e : Error) :
  Forall (λ d, invertible int d.2 ∧ ¬ names ⊆ names_of d.2) pre →
  fl_values ff = Some items → (v, n) ∈ items → int v = inl e →
  ∃ e', _get_enum_values int names (pre ++ (name, ff) :: post) ""
        = inl (Builtin e').
Proof.
  intros Hpre Hitems Hin Hv. unfold _get_enum_values.
  rewrite decide_False by (by intros []).
  rewrite fmap_app, fmap_cons. simpl.
  rewrite (search_skip names) by by apply Forall_fmap.
  simpl. unfold _flags_invert. rewrite Hitems.
  destruct (invert_fails items ∅ v n e Hin Hv) as [e' ->].
  by exists e'.
Qed.

(** X26.  When the definition that answers has a name more than
    once, the code returned for the name is that of its last entry. *)
Theorem last_entry_of_a_name_wins
    (names : list string) (name : string) (ff : Def)
    (post : list (string * Def))
    (before after : list (K * string)) (v : K) (n : string) (z : Z)
    (vs : list Z) (i : nat) :
  fl_values ff = Some (before ++ (v, n) :: after) →
  n ∉ after.*2 → int v = inr z →
  names ⊆ names_of ff →
  _get_enum_values int names ((name, ff) :: post) "" = inr vs →
  names !! i = Some n →
  vs !! i = Some z.
Proof.
  intros Hitems Hafter Hv Hsub. unfold _get_enum_values.
  rewrite decide_False by (by intros []).
  rewrite fmap_cons. cbn [search snd]. unfold _flags_invert. rewrite Hitems.
  destruct (invert int (before ++ (v, n) :: after) ∅) as [e|values] eqn:Hinv;
    [done|].
  cbn [fl_values].
  assert (dom values = list_to_set (names_of ff)) as Hdom.
  { unfold names_of. rewrite Hitems, (invert_dom _ _ _ Hinv), dom_empty_L.
    apply (left_id_L ∅ (∪)). }
  rewrite Hdom, decide_True by by rewrite missing_iff.
  destruct (lookup_all values names) as [e|vs'] eqn:Hall; [done|].
  intros [= ->] Hi. apply lookup_all_inr in Hall.
  destruct (Forall2_lookup_l _ _ _ _ _ Hall Hi) as (z' & Hz' & Hn).
  rewrite Hz'. f_equal.
  assert (values !! n = Some z) as Hz; [|congruence].
  by apply (invert_last before after ∅ v n z values).
Qed.

End Enum.

End MaskingFacts.

Lemma last_matching_link_wins_witness :
  Sqs.get_uri (Sqs.JDict Sqs.two_self) "self" = inr (Sqs.JStr "s3://two").
Proof.
  rewrite (SqsFacts.last_matching_link_wins Sqs.two_self
             (Sqs.link "self" "s3://two")
             [Sqs.JDict (Sqs.link "self" "s3://one");
              Sqs.JDict (Sqs.link "parent" "s3://up")]
             [] "self").
  - vm_compute. reflexivity.
  - vm_compute. reflexivity.
  - repeat constructor; by eexists.
  - constructor.
  - vm_compute. reflexivity.
  - discriminate.
Defined.

Lemma no_matching_link_gives_none_witness :
  Sqs.get_uri (Sqs.JDict Sqs.two_self) "derived_from" = inr Sqs.JNull.
Proof.
  apply (SqsFacts.no_matching_link_gives_none Sqs.two_self
           [Sqs.JDict (Sqs.link "self" "s3://one");
            Sqs.JDict (Sqs.link "parent" "s3://up");
            Sqs.JDict (Sqs.link "self" "s3://two")] "derived_from").
  - vm_compute. reflexivity.
  - repeat constructor; try (by eexists);
      intros (d & [= <-] & Hrel); vm_compute in Hrel; discriminate.
Defined.

Lemma empty_rel_never_matches_witness :
  Sqs.get_uri
    (Sqs.JDict {[ "links" := Sqs.JList [Sqs.JDict (Sqs.link "" "s3://x")] ]})
    "" = inr Sqs.JNull.
Proof.
  apply (SqsFacts.empty_rel_never_matches _
           [Sqs.JDict (Sqs.link "" "s3://x")]).
  - vm_compute. reflexivity.
  - repeat constructor; by eexists.
Defined.

Lemma missing_links_raise_type_error_witness :
  Sqs.get_uri (Sqs.JDict {[ "id" := Sqs.JStr "a" ]}) "self" = inl TypeError.
Proof.
  apply (SqsFacts.missing_links_raise_type_error {[ "id" := Sqs.JStr "a" ]}).
  vm_compute. reflexivity.
Defined.

Lemma non_dict_link_raises_attribute_error_witness :
  Sqs.get_uri
    (Sqs.JDict {[ "links" := Sqs.JList [Sqs.JDict (Sqs.link "self" "s3://one");
                                        Sqs.JStr "s3://two"] ]})
    "self" = inl AttributeError.
Proof.
  apply (SqsFacts.non_dict_link_raises_attribute_error _
           [Sqs.JDict (Sqs.link "self" "s3://one")] []
           (Sqs.JStr "s3://two")).
  - vm_compute. reflexivity.
  - repeat constructor; by eexists.
  - intros [d Hd]. discriminate Hd.
Defined.

Ltac invertible_by_digits :=
  eexists; split; [reflexivity | repeat constructor; eexists; vm_compute; reflexivity].

Ltac lacks n :=
  let H := fresh in let Hn := fresh in
  intros H; assert (Hn := H n); vm_compute in Hn;
  specialize (Hn ltac:(repeat constructor));
  repeat (apply elem_of_cons in Hn as [Hn | Hn]; [discriminate Hn|]);
  by apply elem_of_nil in Hn.

Ltac has_all :=
  let n := fresh in let Hn := fresh in
  intros n Hn; vm_compute;
  repeat (apply elem_of_cons in Hn as [-> | Hn]; [repeat constructor|]);
  by apply elem_of_nil in Hn.

Lemma enum_values_from_one_definition_witness :
  ∃ name ff, (name, ff) ∈ Masking.pets
             ∧ ("dog" ≠ "" → name = "dog")%string
             ∧ Forall2 (Masking.gives Masking.digits ff)
                       ["dog_0"; "dog_13"]%string [0; 13].
Proof.
  apply (MaskingFacts.enum_values_from_one_definition Masking.digits
           ["dog_0"; "dog_13"]%string Masking.pets "dog" [0; 13]).
  vm_compute. reflexivity.
Defined.

Lemma first_covering_definition_answers_witness :
  ∃ vs, Masking._get_enum_values Masking.digits ["dog_0"; "dog_13"]%string
          ([("cat"%string, Masking.cats)] ++ ("dog"%string, Masking.dogs)
             :: [("bad"%string, Masking.broken)]) ""
        = inr vs
        ∧ Forall2 (Masking.gives Masking.digits Masking.dogs)
                  ["dog_0"; "dog_13"]%string vs.
Proof.
  apply (MaskingFacts.first_covering_definition_answers Masking.digits).
  - repeat constructor; [invertible_by_digits | lacks "dog_0"%string].
  - invertible_by_digits.
  - has_all.
Defined.

Lemma no_definition_has_the_names_witness :
  Masking._get_enum_values Masking.digits ["cat_12"; "_nope"]%string
    [("cat", Masking.cats)]%string ""
  = inl (Masking.ValueErrorOf
           (Masking.NotAllFound
              (list_to_set ["cat_12"; "_nope"]%string
               ∖ list_to_set (Masking.names_of Masking.cats)))).
Proof.
  apply (MaskingFacts.no_definition_has_the_names Masking.digits
           ["cat_12"; "_nope"]%string [("cat", Masking.cats)]%string).
  repeat constructor; [invertible_by_digits | lacks "_nope"%string].
Defined.

Lemma named_flag_is_not_guessed_witness :
  Masking._get_enum_values Masking.digits
    ["cat_1"; "bah"; "dog_0"]%string Masking.pets "dog"
  = inl (Masking.ValueErrorOf
           (Masking.NotAllFound
              (list_to_set ["cat_1"; "bah"; "dog_0"]%string
               ∖ list_to_set (Masking.names_of Masking.dogs)))).
Proof.
  assert (Hthm := MaskingFacts.named_flag_is_not_guessed Masking.digits
                    ["cat_1"; "bah"; "dog_0"]%string Masking.pets "dog"
                    Masking.dogs).
  rewrite decide_False in Hthm by lacks "bah"%string.
  apply Hthm; [discriminate | reflexivity | invertible_by_digits].
Defined.

Lemma unknown_flag_raises_key_error_witness :
  Masking._get_enum_values Masking.digits ["cat_0"]%string Masking.pets "fish"
  = inl (Masking.Builtin KeyError).
Proof.
  apply (MaskingFacts.unknown_flag_raises_key_error Masking.digits).
  - discriminate.
  - intros Hin. vm_compute in Hin.
    repeat (apply elem_of_cons in Hin as [Hin | Hin]; [discriminate Hin|]).
    by apply elem_of_nil in Hin.
Defined.

Lemma malformed_definition_stops_the_guess_witness :
  ∃ e, Masking._get_enum_values Masking.digits ["dog_0"; "dog_13"]%string
         ([("cat"%string, Masking.cats)] ++ ("bad"%string, Masking.broken)
            :: [("dog"%string, Masking.dogs)]) ""
       = inl (Masking.Builtin e).
Proof.
  apply (MaskingFacts.malformed_definition_stops_the_guess Masking.digits
           _ _ _ _ _ [("0", "dog_0"); ("x", "dog_13")]%string
           "x"%string "dog_13"%string ValueError).
  - repeat constructor; [invertible_by_digits | lacks "dog_0"%string].
  - reflexivity.
  - repeat constructor.
  - vm_compute. reflexivity.
Defined.

Lemma last_entry_of_a_name_wins_witness :
  Masking._get_enum_values Masking.digits ["cloud"; "water"]%string
    [("fmask"%string, Masking.twice)] "" = inr [2; 5]
  ∧ [2; 5] !! 1%nat = Some 5.
Proof.
  split; [vm_compute; reflexivity|].
  apply (MaskingFacts.last_entry_of_a_name_wins Masking.digits
           ["cloud"; "water"]%string "fmask"%string Masking.twice []
           [("1", "water"); ("2", "cloud")]%string [] "5"%string
           "water"%string 5 [2; 5] 1%nat).
  - reflexivity.
  - apply not_elem_of_nil.
  - vm_compute. reflexivity.
  - has_all.
  - vm_compute. reflexivity.
  - reflexivity.
Defined.
